(** * mmflow: flow post-processing, annotation loading and sequence loss

    A shallow embedding of
    - [BaseDecoder.postprocess_result] and [BaseDecoder.predict_by_feat]
      (mmflow/models/decoders/base_decoder.py),
    - [LoadAnnotations] and [LoadImageFromWebcam]
      (mmflow/datasets/pipelines/loading.py),
    - the sequence loss exported by mmflow/models/losses/__init__.py,
    together with the properties the specification states about them and
    further properties of the code. *)

From Stdlib Require Import ZArith QArith Qround Qpower Lia Strings.Byte.
From Stdlib Require Import Floats.PrimFloat Numbers.Cyclic.Int63.Uint63.
From stdpp Require Import base list gmap strings.

Local Open Scope Z_scope.

(** ** Python outcomes *)

(** The exceptions the modelled code can raise. *)
Inductive exn : Type :=
  | AssertionError
  | KeyError (key : string)
  | IndexError
  | ValueError
  | TypeError
  | UnboundLocalError (name : string)
  | ExternalError (what : string).

(** A call either returns a value or raises. *)
Inductive res (A : Type) : Type :=
  | Ok (a : A)
  | Raise (e : exn).
Arguments Ok {A} a.
Arguments Raise {A} e.

(** [res] is a monad; stdpp's notation [x ← m; k] sequences calls, and an
    exception raised by [m] propagates. *)
#[global] Instance res_ret : MRet res := fun A a => Ok a.
#[global] Instance res_bind : MBind res := fun A B k m =>
  match m with
  | Ok a => k a
  | Raise e => Raise e
  end.

(** [l[i]] for a non-negative index: [IndexError] out of range. *)
Definition getitem {A} (l : list A) (i : nat) : res A :=
  match l !! i with
  | Some a => Ok a
  | None => Raise IndexError
  end.

(** [a, b = t]: exactly two values are unpacked. *)
Definition unpack2 {A} (t : list A) : res (A * A) :=
  match t with
  | [a; b] => Ok (a, b)
  | _ => Raise ValueError
  end.

(** *** Slices

    [l[start:stop]] with step 1: a negative bound counts from the end, and
    both bounds are clamped to [0, len(l)]. *)
Definition slice_bound (n i : Z) : Z :=
  if i <? 0 then Z.max (i + n) 0 else Z.min i n.

Definition py_slice {A} (start stop : Z) (l : list A) : list A :=
  let n := Z.of_nat (length l) in
  let lo := slice_bound n start in
  let hi := slice_bound n stop in
  take (Z.to_nat (hi - lo)) (drop (Z.to_nat lo) l).

(** *** Loops with an early [return]

    The body of a [for] loop either falls off its end, so that the loop goes
    on with the next index, or executes a [return]. *)
Inductive flow (St Ret : Type) : Type :=
  | Continue (s : St)
  | Return (r : Ret).
Arguments Continue {St Ret} s.
Arguments Return {St Ret} r.

Fixpoint for_in {I St Ret} (body : I -> St -> res (flow St Ret))
    (idxs : list I) (s : St) : res (flow St Ret) :=
  match idxs with
  | [] => Ok (Continue s)
  | i :: rest =>
      match body i s with
      | Ok (Continue s') => for_in body rest s'
      | stop => stop
      end
  end.

(** ** The flow post-processor (base_decoder.py) *)

Section PostProcessor.

(** Tensor elements and the scalars of [scale_factor]. *)
Context {R S : Type}.

(** A per-sample tensor, indexed channel, row, column. *)
Abbreviation tensor := (list (list (list R))).

(** The two operations of the tensor library the code relies on:
    element-wise division by a scalar, and
    [F.interpolate(f[None], size, mode='bilinear', align_corners=False).squeeze(0)]. *)
Variable tdiv : R -> S -> R.
Variable interpolate_bilinear : tensor -> Z * Z -> res tensor.

(** [t] has shape (C, H, W). *)
Definition has_shape (t : tensor) (C H W : Z) : Prop :=
  Z.of_nat (length t) = C /\
  Forall (fun ch => Z.of_nat (length ch) = H /\
                    Forall (fun row => Z.of_nat (length row) = W) ch) t.

(** [f.shape[1:]], read off the first channel and its first row.  A tensor
    without rows has no row to read a width from; the width then only
    bounds slices of rows that do not exist. *)
Definition shape_hw (f : tensor) : Z * Z :=
  (Z.of_nat (length (hd [] f)), Z.of_nat (length (hd [] (hd [] f)))).

(** The entries of [metainfo] the post-processor reads.  [None] stands for
    a key that is missing (or, for [pad], mapped to Python's [None]). *)
Record MetaInfo : Type := {
  ori_shape : option (list Z);
  pad : option ((Z * Z) * (Z * Z));
  scale_factor : option (option S * option S)
}.

Record PixelData : Type := { data : tensor }.

Record FlowDataSample : Type := {
  metainfo : MetaInfo;
  fields : gmap string PixelData
}.

(** [FlowDataSample()] *)
Definition new_sample : FlowDataSample :=
  {| metainfo := {| ori_shape := None; pad := None; scale_factor := None |};
     fields := ∅ |}.

(** [sample.set_data(d)]: every entry of [d] becomes a data field. *)
Definition set_data (d : gmap string PixelData) (s : FlowDataSample)
    : FlowDataSample :=
  {| metainfo := metainfo s; fields := d ∪ fields s |}.

(** The dictionary with the single key 'pred_flow_fw', mapped to a
    [PixelData] whose [data] is [f]. *)
Definition pred_flow_fw (f : tensor) : gmap string PixelData :=
  {[ "pred_flow_fw" := {| data := f |} ]}.

(** [f[:, top:(H - bottom), left:(W - right)]] *)
Definition crop (f : tensor) (H W : Z) (p : (Z * Z) * (Z * Z)) : tensor :=
  (fun ch => py_slice (p.2.1) (W - p.2.2) <$> py_slice (p.1.1) (H - p.1.2) ch)
    <$> f.

(** [plane / s], element by element. *)
Definition div_plane (s : S) (plane : list (list R)) : list (list R) :=
  (fun row : list R => (fun x => tdiv x s) <$> row) <$> plane.

(** [f[k, :, :] = f[k, :, :] / s] *)
Definition div_channel (k : nat) (s : S) (f : tensor) : res tensor :=
  plane ← getitem f k;
  Ok (<[k := div_plane s plane]> f).

(** Lines 72-100: the body of the per-sample loop, the [return] of line 100
    included.  Every element of an unravelled tensor is a tensor, so the
    test [f is not None] of line 83 always succeeds. *)
Definition loop_body (flow_results : list tensor) (only_prediction : bool)
    (i : nat) (data_samples : list FlowDataSample)
    : res (flow (list FlowDataSample) (list FlowDataSample)) :=
  data_samples ←
    (if only_prediction then
       f ← getitem flow_results i;
       let prediction := set_data (pred_flow_fw f) new_sample in
       Ok (data_samples ++ [prediction])
     else
       sample ← getitem data_samples i;
       let img_meta := metainfo sample in
       shape ← match ori_shape img_meta with
                | Some s => Ok s
                | None => Raise (KeyError "ori_shape")
                end;
       '(ori_H, ori_W) ← unpack2 shape;
       let pad := pad img_meta in
       let '(w_scale, h_scale) :=
         default (None, None) (scale_factor img_meta) in
       f ← getitem flow_results i;
       let '(H, W) := shape_hw f in
       f ← match pad with
            | Some p => Ok (crop f H W p)
            | None =>
                match w_scale, h_scale with
                | Some w_scale, Some h_scale =>
                    f ← interpolate_bilinear f (ori_H, ori_W);
                    f ← div_channel 0 w_scale f;
                    div_channel 1 h_scale f
                | _, _ => Ok f
                end
            end;
       Ok (<[i := set_data (pred_flow_fw f) sample]> data_samples));
  Ok (Return data_samples).

(** [postprocess_result(flow_results, data_samples)].  A Python [None]
    argument or result is Rocq's [None]; falling off the end of the function
    returns [None]. *)
Definition postprocess_result (flow_results : list tensor)
    (data_samples : option (list FlowDataSample))
    : res (option (list FlowDataSample)) :=
  '(data_samples, only_prediction) ←
    match data_samples with
    | None => Ok ([], true)
    | Some ds =>
        if decide (length flow_results = length ds) then Ok (ds, false)
        else Raise AssertionError
    end;
  r ← for_in (loop_body flow_results only_prediction)
         (seq 0 (length flow_results)) data_samples;
  match r with
  | Return v => Ok (Some v)
  | Continue _ => Ok None
  end.

End PostProcessor.

Arguments MetaInfo : clear implicits.
Arguments PixelData : clear implicits.
Arguments FlowDataSample : clear implicits.

(** ** The annotation loader (loading.py) *)

(** Calls of the loader read files: a call gets the list of the paths read
    so far and returns it extended, also when it raises. *)
Definition io (A : Type) : Type := list string -> res A * list string.

#[global] Instance io_ret : MRet io := fun A a log => (Ok a, log).
#[global] Instance io_bind : MBind io := fun A B k m log =>
  match m log with
  | (Ok a, log') => k a log'
  | (Raise e, log') => (Raise e, log')
  end.

Definition raise {A} (e : exn) : io A := fun log => (Raise e, log).
Definition lift {A} (r : res A) : io A := fun log => (r, log).

(** [s[-3:]]: the last three characters, all of [s] when it is shorter. *)
Definition suffix3 (s : string) : string :=
  let l := String.list_ascii_of_string s in
  let n := Z.of_nat (length l) in
  String.string_of_list_ascii (drop (Z.to_nat (slice_bound n (-3))) l).

(** A pixel of a grayscale image is an unsigned byte; [px / 255] is a
    division of binary64 floats. *)
Definition float_of_byte (px : Byte.byte) : float :=
  PrimFloat.of_uint63 (Uint63.of_Z (Z.of_N (Byte.to_N px))).

Definition div255 (px : Byte.byte) : float :=
  PrimFloat.div (float_of_byte px) 255%float.

Section Loader.

(** Decoded flow arrays, validity masks and float32 numbers. *)
Context {Flow Mask F32 : Type}.

(** The collaborators of the loader: the contents [file_client.get] finds
    at a path, the decoders [flow_from_bytes], [sparse_flow_from_bytes] and
    [mmcv.imfrombytes(_, flag='grayscale')], and the rounding of a float to
    [np.float32]. Each of the first four may raise. *)
Variable file_contents : string -> res (list Byte.byte).
Variable flow_from_bytes : list Byte.byte -> string -> res Flow.
Variable sparse_flow_from_bytes : list Byte.byte -> res (Flow * Mask).
Variable imfrombytes_grayscale : list Byte.byte -> res (list (list Byte.byte)).
Variable astype_float32 : float -> F32.

(** The values a record holds under the keys the loader reads and writes. *)
Inductive value : Type :=
  | VNone
  | VStr (s : string)
  | VFlow (a : Flow)
  | VMask (m : Mask)
  | VOcc (a : list (list F32)).

(** [results.get(key, None)] *)
Definition dict_get (results : gmap string value) (key : string) : value :=
  default VNone (results !! key).

(** [v is not None] *)
Definition is_not_none (v : value) : bool :=
  match v with
  | VNone => false
  | _ => true
  end.

(** [self.file_client.get(filename)]; a file name is a string. *)
Definition file_client_get (filename : value) : io (list Byte.byte) :=
  match filename with
  | VStr path => fun log => (file_contents path, log ++ [path])
  | _ => raise TypeError
  end.

(** [filename[-3:]] *)
Definition last3 (filename : value) : io string :=
  match filename with
  | VStr path => mret (suffix3 path)
  | _ => raise TypeError
  end.

(** [(img / 255).astype(np.float32)] *)
Definition normalize (img : list (list Byte.byte)) : list (list F32) :=
  (fun row : list Byte.byte => (fun px => astype_float32 (div255 px)) <$> row)
    <$> img.

(** The two flags of [LoadAnnotations]; the file client, created on the
    first call from [file_client_args], is [file_contents]. *)
Record LoadAnnotations : Type := {
  with_occ : bool;
  sparse : bool
}.

Definition _load_flow (results : gmap string value)
    : io (gmap string value) :=
  let flow_fw_filename := dict_get results "flow_fw_path" in
  let flow_bw_filename := dict_get results "flow_bw_path" in
  flow_fw ←
    (if is_not_none flow_fw_filename then
       flow_fw_bytes ← file_client_get flow_fw_filename;
       suffix ← last3 flow_fw_filename;
       flow_fw ← lift (flow_from_bytes flow_fw_bytes suffix);
       mret (VFlow flow_fw)
     else mret VNone);
  flow_bw ←
    (if is_not_none flow_bw_filename then
       flow_bw_bytes ← file_client_get flow_bw_filename;
       suffix ← last3 flow_bw_filename;
       flow_bw ← lift (flow_from_bytes flow_bw_bytes suffix);
       mret (VFlow flow_bw)
     else mret VNone);
  let results := <["gt_flow_fw" := flow_fw]> results in
  let results := <["gt_flow_bw" := flow_bw]> results in
  mret results.

(** The local variable [valid] is bound in the first branch only: it is
    modelled by an option, [None] while it is unbound, and reading it then
    raises [UnboundLocalError]. *)
Definition _load_sparse_flow (results : gmap string value)
    : io (gmap string value) :=
  let flow_fw_filename := dict_get results "flow_fw_path" in
  '(flow_fw, valid) ←
    (if is_not_none flow_fw_filename then
       flow_fw_bytes ← file_client_get flow_fw_filename;
       '(flow_fw, valid) ← lift (sparse_flow_from_bytes flow_fw_bytes);
       mret (VFlow flow_fw, Some (VMask valid))
     else mret (VNone, None));
  let results := <["gt_flow_fw" := flow_fw]> results in
  let results := <["gt_flow_bw" := VNone]> results in
  valid ← match valid with
           | Some v => mret v
           | None => raise (UnboundLocalError "valid")
           end;
  let results := <["gt_valid" := valid]> results in
  mret results.

Definition _load_occ (results : gmap string value)
    : io (gmap string value) :=
  let occ_fw_filename := dict_get results "occ_fw_path" in
  let occ_bw_filename := dict_get results "occ_bw_path" in
  occ_fw ←
    (if is_not_none occ_fw_filename then
       occ_fw_bytes ← file_client_get occ_fw_filename;
       img ← lift (imfrombytes_grayscale occ_fw_bytes);
       mret (VOcc (normalize img))
     else mret VNone);
  occ_bw ←
    (if is_not_none occ_bw_filename then
       occ_bw_bytes ← file_client_get occ_bw_filename;
       img ← lift (imfrombytes_grayscale occ_bw_bytes);
       mret (VOcc (normalize img))
     else mret VNone);
  let results := <["gt_occ_fw" := occ_fw]> results in
  let results := <["gt_occ_bw" := occ_bw]> results in
  mret results.

Definition transform (self : LoadAnnotations) (results : gmap string value)
    : io (gmap string value) :=
  results ← (if sparse self then _load_sparse_flow results
             else _load_flow results);
  if with_occ self then _load_occ results else mret results.

(** The occlusion mask in the words of the specification: for the value [v]
    a record holds under an occlusion path key, the value stored under the
    matching output key and the files read for it.  An absent path gives
    [None]; a present one is read, decoded as a grayscale image, divided by
    255 and cast to float32. *)
Inductive occ_loaded (v : value) : value -> list string -> Prop :=
  | occ_absent :
      v = VNone -> occ_loaded v VNone []
  | occ_present path bytes img :
      v = VStr path ->
      file_contents path = Ok bytes ->
      imfrombytes_grayscale bytes = Ok img ->
      occ_loaded v
        (VOcc ((fun row : list Byte.byte =>
                  (fun px => astype_float32 (div255 px)) <$> row) <$> img))
        [path].

End Loader.

Arguments value : clear implicits.

(** ** The sequence loss (sequence_loss.py) *)

Section SequenceLoss.

(** Predictions and ground truth, and the loss of one iteration's
    prediction against the ground truth (end-point error or Charbonnier). *)
Context {Pred GT : Type}.
Variable iteration_loss : Pred -> GT -> Q.

Definition Qsum (l : list Q) : Q := foldr Qplus 0%Q l.

(** Modelled from the spec: the weight of iteration [i] of [N],
    [gamma^(N-1-i)]; sequence_loss.py is not among the sources. *)
Definition iteration_weight (gamma : Q) (N i : nat) : Q :=
  (gamma ^ Z.of_nat (N - 1 - i))%Q.

(** Modelled from the spec: the sequence loss, the sum over the iterations
    of [weight_i * loss_i]; sequence_loss.py is not among the sources. *)
Definition sequence_loss (gamma : Q) (preds : list Pred) (gt : GT) : Q :=
  let N := length preds in
  Qsum (imap (fun i pred =>
                (iteration_weight gamma N i * iteration_loss pred gt)%Q) preds).

End SequenceLoss.

(** ** The crop in the words of the specification *)

(** [before] elements removed at the front of [l] and [after] at its back. *)
Definition trim {A} (before after : nat) (l : list A) : list A :=
  drop before (take (length l - after) l).

(** [top] rows removed at the top, [bottom] at the bottom, [left] columns on
    the left and [right] on the right, in every channel. *)
Definition remove_margins {R} (top bottom left right : nat)
    (f : list (list (list R))) : list (list (list R)) :=
  (fun ch => trim left right <$> trim top bottom ch) <$> f.

(** ** Instances for the examples *)

Module Example.

(** Bilinear resizing of rational tensors without corner alignment: output
    index [i] reads the input at [(i + 1/2) * n_in / n_out - 1/2], clamped
    at 0, and mixes its two neighbours. *)
Definition source_index (n_in n_out : Z) (i : nat) : Q :=
  let s := ((inject_Z (Z.of_nat i) + (1 # 2)) * (inject_Z n_in / inject_Z n_out)
            - (1 # 2))%Q in
  if Qle_bool 0 s then s else 0%Q.

Definition resize_axis {A} (mix : Q -> A -> A -> A) (d : A) (n_out : Z)
    (l : list A) : list A :=
  let n_in := Z.of_nat (length l) in
  (fun i : nat =>
     let s := source_index n_in n_out i in
     let i0 := Qfloor s in
     let i1 := Z.min (i0 + 1) (n_in - 1) in
     mix (s - inject_Z i0)%Q (nth (Z.to_nat i0) l d) (nth (Z.to_nat i1) l d))
    <$> seq 0 (Z.to_nat n_out).

Definition lerp (lam a b : Q) : Q := Qred ((1 - lam) * a + lam * b).

Definition interpolate (f : list (list (list Q))) (size : Z * Z)
    : res (list (list (list Q))) :=
  if (0 <? size.1) && (0 <? size.2) then
    Ok ((fun plane : list (list Q) =>
           resize_axis (fun lam => zip_with (lerp lam)) [] size.1
             (resize_axis lerp 0%Q size.2 <$> plane)) <$> f)
  else Raise (ExternalError "interpolate").

(** An interpolation that always fails. *)
Definition no_interpolate (f : list (list (list Q))) (size : Z * Z)
    : res (list (list (list Q))) :=
  Raise (ExternalError "interpolate").

Definition qdiv (x s : Q) : Q := Qred (x / s).

(** The tensor of shape (C, H, W) whose element (c, i, j) is 100c + 10i + j. *)
Definition ramp (C H W : nat) : list (list (list Q)) :=
  (fun c : nat =>
     (fun i : nat =>
        (fun j : nat => inject_Z (Z.of_nat (100 * c + 10 * i + j)))
          <$> seq 0 W) <$> seq 0 H) <$> seq 0 C.

Definition meta (p : option ((Z * Z) * (Z * Z)))
    (sf : option (option Q * option Q)) (shape : list Z)
    : FlowDataSample Q Q :=
  {| metainfo := {| ori_shape := Some shape; pad := p; scale_factor := sf |};
     fields := ∅ |}.

(** A file system with one sparse flow file and one occlusion image; the
    decoders read the bytes as they are. *)
Definition files (path : string) : res (list Byte.byte) :=
  if decide (path = "000000_10.png") then Ok [x00; x80; xff]%byte
  else if decide (path = "occ_fw.png") then Ok [x00; x33; xff]%byte
  else Raise (ExternalError "FileNotFoundError").

Definition decode_flow (b : list Byte.byte) (suffix : string)
    : res (list Byte.byte) := Ok b.

Definition decode_sparse (b : list Byte.byte)
    : res (list Byte.byte * list bool) :=
  Ok (b, (fun px => negb (Byte.eqb px x00)) <$> b).

Definition decode_gray (b : list Byte.byte) : res (list (list Byte.byte)) :=
  Ok [b].

End Example.

(** ** Prediction from features (base_decoder.py, lines 102-126) *)

Section PredictByFeat.

Context {R S D : Type}.
Variable tdiv : R -> S -> R.
Variable interpolate_bilinear :
  list (list (list R)) -> Z * Z -> res (list (list (list R))).

(** Multiplication of an element by [self.flow_div], the bilinear
    interpolation of a whole batch,
    [F.interpolate(flow_results, size, mode='bilinear', align_corners=False)],
    and the entry 'img_shape' of a sample's metainfo ([None] when the key is
    missing). *)
Variable tmul : R -> D -> R.
Variable interpolate_batch :
  list (list (list (list R))) -> Z * Z -> res (list (list (list (list R)))).
Variable img_shape : FlowDataSample R S -> option (list Z).

(** [flow_results * self.flow_div] *)
Definition mul_flow_div (flow_div : D)
    (flow_results : list (list (list (list R))))
    : list (list (list (list R))) :=
  (fun f : list (list (list R)) =>
     (fun ch : list (list R) =>
        (fun row : list R => (fun x => tmul x flow_div) <$> row) <$> ch)
       <$> f) <$> flow_results.

Definition predict_by_feat (flow_div : D)
    (flow_results : list (list (list (list R))))
    (data_samples : option (list (FlowDataSample R S)))
    : res (option (list (FlowDataSample R S))) :=
  match data_samples with
  | None =>
      let flow_results := mul_flow_div flow_div flow_results in
      postprocess_result tdiv interpolate_bilinear flow_results None
  | Some samples =>
      first ← getitem samples 0;
      shape ← match img_shape first with
               | Some s => Ok s
               | None => Raise (KeyError "img_shape")
               end;
      '(H, W) ← unpack2 (py_slice 0 2 shape);
      flow_results ← interpolate_batch flow_results (H, W);
      let flow_results := mul_flow_div flow_div flow_results in
      postprocess_result tdiv interpolate_bilinear flow_results (Some samples)
  end.

End PredictByFeat.

(** ** The webcam loader (loading.py, lines 194-225) *)

Section Webcam.

(** Images, their conversion [img.astype(np.float32)] and [img.shape]. *)
Context {Img : Type}.
Variable img_astype_float32 : Img -> Img.
Variable img_shape_of : Img -> list Z.

(** The values a record holds under the keys the webcam loader reads and
    writes. *)
Inductive wvalue : Type :=
  | WNone
  | WImg (a : Img)
  | WShape (s : list Z).

(** [results[key]] *)
Definition dict_item (results : gmap string wvalue) (key : string)
    : res wvalue :=
  match results !! key with
  | Some v => Ok v
  | None => Raise (KeyError key)
  end.

(** [v.astype(np.float32)] and [v.shape]: attributes of an array. *)
Definition wastype (v : wvalue) : res wvalue :=
  match v with
  | WImg a => Ok (WImg (img_astype_float32 a))
  | _ => Raise (ExternalError "AttributeError")
  end.

Definition wshape (v : wvalue) : res wvalue :=
  match v with
  | WImg a => Ok (WShape (img_shape_of a))
  | _ => Raise (ExternalError "AttributeError")
  end.

(** The flag the class inherits from [LoadImageFromFile]. *)
Record LoadImageFromWebcam : Type := { to_float32 : bool }.

Definition __call__ (self : LoadImageFromWebcam)
    (results : gmap string wvalue) : res (gmap string wvalue) :=
  img1 ← dict_item results "img1";
  img2 ← dict_item results "img2";
  '(img1, img2) ←
    (if to_float32 self then
       img1 ← wastype img1;
       img2 ← wastype img2;
       Ok (img1, img2)
     else Ok (img1, img2));
  let results := <["img1_path" := WNone]> results in
  let results := <["img2_path" := WNone]> results in
  let results := <["img1" := img1]> results in
  let results := <["img2" := img2]> results in
  shape ← wshape img1;
  let results := <["img_shape" := shape]> results in
  shape ← wshape img1;
  let results := <["ori_shape" := shape]> results in
  Ok results.

End Webcam.

Arguments wvalue : clear implicits.

(** ** The printed form of the annotation loader (loading.py, lines 184-191) *)

(** [str(b)] for a boolean. *)
Definition str_bool (b : bool) : string :=
  if b then "True" else "False".

(** [class_name] is [self.__class__.__name__] and [file_client_args] the
    printed form of the dictionary of that name. *)
Definition __repr__ (class_name : string) (self : LoadAnnotations)
    (file_client_args : string) : string :=
  let repr_str := class_name in
  let repr_str := repr_str +:+ "(with_occ=" +:+ str_bool (with_occ self) +:+ "," in
  let repr_str := repr_str +:+ "sparse='" +:+ str_bool (sparse self) +:+ "'," in
  let repr_str :=
    repr_str +:+ "file_client_args='" +:+ file_client_args +:+ "')" in
  repr_str.

(** ** The keys the annotation loader may write *)

(** The output keys of a [transform] with the flags of [self]. *)
Definition written_keys (self : LoadAnnotations) : list string :=
  ["gt_flow_fw"; "gt_flow_bw"]
  ++ (if sparse self then ["gt_valid"] else [])
  ++ (if with_occ self then ["gt_occ_fw"; "gt_occ_bw"] else []).

(** The four keys under which a record names files. *)
Definition path_keys : list string :=
  ["flow_fw_path"; "flow_bw_path"; "occ_fw_path"; "occ_bw_path"].

(** A call went from the read log [log] to [log']: it read at most [n]
    files, each named in the record [r] under one of [keys]. *)
Definition reads_within {Flow Mask F32 : Type}
    (r : gmap string (value Flow Mask F32)) (keys : list string) (n : nat)
    (log log' : list string) : Prop :=
  exists reads : list string,
    log' = log ++ reads /\ (length reads <= n)%nat /\
    forall p, p ∈ reads ->
      exists k, k ∈ keys /\ r !! k = Some (VStr p).

(** ** More instances for the examples *)

Module ExampleMore.

Definition qmul (x s : Q) : Q := Qred (x * s).

(** The interpolation of [Example], sample by sample. *)
Definition interpolate_all (fs : list (list (list (list Q)))) (size : Z * Z)
    : res (list (list (list (list Q)))) :=
  foldr (fun f acc =>
           g ← Example.interpolate f size; gs ← acc; Ok (g :: gs))
    (Ok []) fs.

(** Every sample was resized to 2 x 4 colour images. *)
Definition img_shape_2_4 (d : FlowDataSample Q Q) : option (list Z) :=
  Some [2; 4; 3].

(** The same for grey images, whose shape has two entries. *)
Definition img_shape_2_4_grey (d : FlowDataSample Q Q) : option (list Z) :=
  Some [2; 4].

(** A sample whose 'img_shape' has one entry. *)
Definition img_shape_short (d : FlowDataSample Q Q) : option (list Z) :=
  Some [4].

(** Integer images by rows; their conversion keeps the pixel values. *)
Definition image_shape (a : list (list Z)) : list Z :=
  [Z.of_nat (length a); Z.of_nat (length (hd [] a))].

Definition image_float (a : list (list Z)) : list (list Z) := a.

(** A record for sparse mode with an occlusion mask, and what the transform
    makes of it. *)
Definition sparse_record
    : gmap string (value (list Byte.byte) (list bool) float) :=
  {[ "flow_fw_path" := VStr "000000_10.png";
     "occ_fw_path" := VStr "occ_fw.png" ]}.

Definition sparse_loaded
    : gmap string (value (list Byte.byte) (list bool) float) :=
  <["gt_occ_bw" := VNone]>
    (<["gt_occ_fw" := VOcc [[0; 0x1.999999999999ap-3; 1]%float]]>
       (<["gt_valid" := VMask [false; true; true]]>
          (<["gt_flow_bw" := VNone]>
             (<["gt_flow_fw" := VFlow [x00; x80; xff]%byte]> sparse_record)))).

(** A webcam record with two images of different shapes and a stale path,
    and what the webcam loader makes of it. *)
Definition webcam_record : gmap string (wvalue (list (list Z))) :=
  {[ "img1" := WImg [[1; 2; 3]; [4; 5; 6]];
     "img2" := WImg [[7]];
     "img1_path" := WShape [0] ]}.

Definition webcam_loaded : gmap string (wvalue (list (list Z))) :=
  <["ori_shape" := WShape [2; 3]]>
    (<["img_shape" := WShape [2; 3]]>
       (<["img2" := WImg [[7]]]>
          (<["img1" := WImg [[1; 2; 3]; [4; 5; 6]]]>
             (<["img2_path" := WNone]>
                (<["img1_path" := WNone]> webcam_record))))).

End ExampleMore.

(** * Properties *)

(** ** Slices and loops *)

Lemma trim_length {A} (before after : nat) (l : list A) :
  length (trim before after l) = (length l - after - before)%nat.
Proof. unfold trim. rewrite length_drop, length_take. lia. Qed.

Lemma trim_subseteq {A} (before after : nat) (l : list A) (x : A) :
  x ∈ trim before after l -> x ∈ l.
Proof.
  unfold trim. intros Hx.
  apply list_elem_of_lookup in Hx as [k Hk].
  rewrite lookup_drop in Hk. apply lookup_take_Some in Hk as [Hk _].
  apply list_elem_of_lookup. eauto.
Qed.

(** A slice whose bounds are margins that fit removes exactly the margins. *)
Lemma py_slice_trim {A} (l : list A) (a b : Z) :
  0 <= a -> 0 <= b -> a + b <= Z.of_nat (length l) ->
  py_slice a (Z.of_nat (length l) - b) l = trim (Z.to_nat a) (Z.to_nat b) l.
Proof.
  intros Ha Hb Hab. unfold py_slice, slice_bound, trim.
  destruct (Z.ltb_spec a 0); [lia |].
  destruct (Z.ltb_spec (Z.of_nat (length l) - b) 0); [lia |].
  rewrite take_drop_commute. f_equal; [lia |]. f_equal. lia.
Qed.

Lemma for_in_return {I St Ret} (body : I -> St -> res (flow St Ret))
    (i : I) (rest : list I) (s : St) (r : Ret) :
  body i s = Ok (Return r) -> for_in body (i :: rest) s = Ok (Return r).
Proof. intros Hb. simpl. by rewrite Hb. Qed.

Lemma for_in_raise {I St Ret} (body : I -> St -> res (flow St Ret))
    (i : I) (rest : list I) (s : St) (e : exn) :
  body i s = Raise e -> for_in body (i :: rest) s = Raise e.
Proof. intros Hb. simpl. by rewrite Hb. Qed.

(** ** The flow post-processor *)

Section PostProcessorFacts.

Context {R S : Type}.
Variable tdiv : R -> S -> R.
Variable interpolate_bilinear :
  list (list (list R)) -> Z * Z -> res (list (list (list R))).

Implicit Types (f g : list (list (list R))) (fs : list (list (list (list R)))).
Implicit Types (d : FlowDataSample R S) (ds : list (FlowDataSample R S)).

(** The loop returns from its first iteration: whatever the body computes
    at index 0 is the result of the whole call. *)
Lemma postprocess_result_first fs ds ds' :
  length fs = length ds -> fs <> [] ->
  loop_body tdiv interpolate_bilinear fs false 0 ds = Ok (Return ds') ->
  postprocess_result tdiv interpolate_bilinear fs (Some ds) = Ok (Some ds').
Proof.
  intros Hlen Hne Hbody. unfold postprocess_result.
  destruct (decide (length fs = length ds)) as [_ | []]; [| done].
  destruct fs as [| f fs]; [done |]. cbn -[loop_body].
  by rewrite Hbody.
Qed.

(** The body never falls off its end: it returns or raises. *)
Lemma loop_body_returns fs only i ds r :
  loop_body tdiv interpolate_bilinear fs only i ds = Ok r ->
  exists ds', r = Return ds'.
Proof.
  unfold loop_body. intros Hb.
  match type of Hb with
  | mbind _ ?m = _ => destruct m as [ds' | e]; cbn in Hb
  end; [| done].
  exists ds'. congruence.
Qed.

(** With metadata, the body changes the record at its index only. *)
Lemma loop_body_updates_one fs i ds r :
  loop_body tdiv interpolate_bilinear fs false i ds = Ok r ->
  exists d', r = Return (<[i := d']> ds).
Proof.
  unfold loop_body, div_channel, mbind, res_bind. intros Hb.
  repeat case_match; simplify_eq; eauto.
Qed.

(** With metadata, the records after the first are returned as they were
    passed. *)
Lemma postprocess_result_rest_untouched fs ds out :
  postprocess_result tdiv interpolate_bilinear fs (Some ds) = Ok (Some out) ->
  drop 1 out = drop 1 ds.
Proof.
  unfold postprocess_result.
  destruct (decide (length fs = length ds)) as [Hlen |]; [| done].
  destruct fs as [| f fs]; [done |]. cbn -[loop_body].
  destruct (loop_body _ _ _ _ _ _) as [r | e] eqn:Hb; [| done].
  apply loop_body_updates_one in Hb as [d' ->].
  intros [= <-]. by destruct ds.
Qed.

(** On a tensor of shape (C, H, W) the slices of [crop] remove the margins
    [pad] records, provided the margins fit. *)
Lemma crop_remove_margins f (C H W a b c e : Z) :
  has_shape f C H W ->
  0 <= a -> 0 <= b -> a + b <= H -> 0 <= c -> 0 <= e -> c + e <= W ->
  crop f (shape_hw f).1 (shape_hw f).2 ((a, b), (c, e)) =
  remove_margins (Z.to_nat a) (Z.to_nat b) (Z.to_nat c) (Z.to_nat e) f.
Proof.
  intros [_ Hf] Ha Hb Hab Hc He Hce.
  unfold crop, remove_margins, shape_hw. cbn [fst snd].
  destruct f as [| ch0 f']; [done |]. cbn [hd].
  apply Forall_fmap_ext.
  pose proof (Forall_inv Hf) as [Hch0 Hrows0].
  eapply Forall_impl; [exact Hf |]. intros ch [Hch Hrows]. cbn beta.
  assert (Z.of_nat (length ch0) = Z.of_nat (length ch)) as -> by congruence.
  rewrite py_slice_trim by lia.
  apply Forall_fmap_ext. apply Forall_forall. intros row Hrow.
  apply trim_subseteq in Hrow.
  pose proof (proj1 (Forall_forall _ _) Hrows row Hrow) as HW. cbn beta in HW.
  destruct ch0 as [| row0 ch0'].
  - destruct ch as [| r ch']; [by apply elem_of_nil in Hrow |].
    simpl length in Hch, Hch0. exfalso. clear -Hch Hch0. lia.
  - cbn [hd]. apply Forall_inv in Hrows0.
    assert (Z.of_nat (length row0) = Z.of_nat (length row)) as -> by congruence.
    apply py_slice_trim; lia.
Qed.

Lemma remove_margins_shape f (C H W : Z) (a b c e : nat) :
  has_shape f C H W ->
  has_shape (remove_margins a b c e f) C
    (Z.of_nat (Z.to_nat H - b - a)) (Z.of_nat (Z.to_nat W - e - c)).
Proof.
  intros [HC Hf]. split.
  - unfold remove_margins. by rewrite length_fmap.
  - unfold remove_margins. apply Forall_fmap.
    eapply Forall_impl; [exact Hf |]. intros ch [Hch Hrows]. cbn.
    split.
    + rewrite length_fmap, trim_length. lia.
    + apply Forall_fmap, Forall_forall. intros row Hrow. cbn.
      apply trim_subseteq in Hrow.
      pose proof (proj1 (Forall_forall _ _) Hrows row Hrow) as HW.
      cbn beta in HW. rewrite trim_length. lia.
Qed.

(** What the body computes for a sample whose metadata has a two-element
    [ori_shape]: the three branches of lines 86-97, then the update of the
    sample's record. *)
Lemma loop_body_sample fs ds i f d (oh ow : Z) :
  fs !! i = Some f -> ds !! i = Some d ->
  ori_shape (metainfo d) = Some [oh; ow] ->
  loop_body tdiv interpolate_bilinear fs false i ds =
    g ← match pad (metainfo d) with
         | Some p => Ok (crop f (shape_hw f).1 (shape_hw f).2 p)
         | None =>
             match default (None, None) (scale_factor (metainfo d)) with
             | (Some w, Some h) =>
                 g ← interpolate_bilinear f (oh, ow);
                 g ← div_channel tdiv 0 w g;
                 div_channel tdiv 1 h g
             | _ => Ok f
             end
         end;
    Ok (Return (<[i := set_data (pred_flow_fw g) d]> ds)).
Proof.
  intros Hf Hd Hori. unfold loop_body, getitem. rewrite Hf, Hd. cbn.
  rewrite Hori. cbn.
  destruct (default (None, None) (scale_factor (metainfo d))) as [w h].
  destruct (shape_hw f) as [H W]. cbn [fst snd].
  destruct (pad (metainfo d)) as [p |]; [done |].
  destruct w as [w |], h as [h |]; try done.
  cbn. destruct (interpolate_bilinear f (oh, ow)) as [g | e]; [| done].
  cbn. destruct (div_channel tdiv 0 w g) as [g' | e]; [| done].
  cbn. by destruct (div_channel tdiv 1 h g') as [g'' | e].
Qed.

(** A tensor with two channels is a list of two planes. *)
Lemma has_shape_two_channels g (H W : Z) :
  has_shape g 2 H W -> exists p0 p1 : list (list R), g = [p0; p1].
Proof.
  intros [Hlen _].
  destruct g as [| p0 [| p1 [| p2 g']]]; simpl in Hlen; try lia.
  by exists p0, p1.
Qed.

Lemma div_plane_shape (s : S) (plane : list (list R)) (H W : Z) :
  Z.of_nat (length plane) = H /\
    Forall (fun row => Z.of_nat (length row) = W) plane ->
  Z.of_nat (length (div_plane tdiv s plane)) = H /\
    Forall (fun row => Z.of_nat (length row) = W) (div_plane tdiv s plane).
Proof.
  intros [HH HW]. unfold div_plane. split.
  - by rewrite length_fmap.
  - apply Forall_fmap. eapply Forall_impl; [exact HW |].
    intros row Hrow. cbn. by rewrite length_fmap.
Qed.

(** C1 (failing input).  A batch of two predictions with the metadata of
    two samples: the call returns both records, and only the first one has
    a prediction under 'pred_flow_fw'; the second is returned as it was
    passed, without the key. *)
Theorem postprocess_result_attaches_first_sample_only (x y : R) :
  let d := {| metainfo := {| ori_shape := Some [1; 1]; pad := None;
                             scale_factor := None |};
              fields := ∅ |} in
  let f0 := [[[x]]; [[x]]] in
  let f1 := [[[y]]; [[y]]] in
  postprocess_result tdiv interpolate_bilinear [f0; f1] (Some [d; d])
    = Ok (Some [set_data (pred_flow_fw f0) d; d])
  /\ fields (set_data (pred_flow_fw f0) d) !! "pred_flow_fw"
       = Some {| data := f0 |}
  /\ fields d !! "pred_flow_fw" = None.
Proof. intros d f0 f1. split; [reflexivity | split; reflexivity]. Qed.

(** C3 (failing input).  A batch of two predictions without metadata: the
    call returns one record, which wraps the first prediction unchanged;
    the second prediction is not wrapped. *)
Theorem postprocess_result_wraps_first_prediction_only f0 f1 :
  postprocess_result tdiv interpolate_bilinear [f0; f1] None
    = Ok (Some [set_data (pred_flow_fw f0) new_sample])
  /\ fields (set_data (S := S) (pred_flow_fw f0) new_sample) !! "pred_flow_fw"
       = Some {| data := f0 |}.
Proof. split; reflexivity. Qed.

(** C10.  An empty batch without metadata: the loop runs over no index, so
    its body is not executed and no [return] is reached; the call falls off
    its end and returns [None], not an empty sequence. *)
Theorem postprocess_result_empty_batch_returns_none :
  for_in (loop_body tdiv interpolate_bilinear [] true) (seq 0 0) []
    = Ok (Continue [])
  /\ postprocess_result tdiv interpolate_bilinear [] None = Ok None.
Proof. split; reflexivity. Qed.

(** The pad branch, where the loop runs it.  For a sample whose tensor has
    shape (2, H, W) and whose metadata records pad = ((a, b), (c, e)),
    margins that fit in the tensor, the body of the loop attaches the tensor
    with a rows removed at the top, b at the bottom, c columns on the left
    and e on the right, of shape (2, H-a-b, W-c-e).  Only for index 0, the
    one sample the loop reaches, is this the result of
    [postprocess_result]. *)
Theorem pad_crops_recorded_margins fs ds i f d (a b c e oh ow H W : Z) :
  fs !! i = Some f -> ds !! i = Some d ->
  has_shape f 2 H W ->
  ori_shape (metainfo d) = Some [oh; ow] ->
  pad (metainfo d) = Some ((a, b), (c, e)) ->
  0 <= a -> 0 <= b -> a + b <= H -> 0 <= c -> 0 <= e -> c + e <= W ->
  let g := remove_margins (Z.to_nat a) (Z.to_nat b) (Z.to_nat c) (Z.to_nat e) f in
  let out := <[i := set_data (pred_flow_fw g) d]> ds in
  has_shape g 2 (H - a - b) (W - c - e) /\
  loop_body tdiv interpolate_bilinear fs false i ds = Ok (Return out) /\
  (i = 0%nat -> length fs = length ds ->
   postprocess_result tdiv interpolate_bilinear fs (Some ds) = Ok (Some out)).
Proof.
  intros Hf Hd Hshape Hori Hpad Ha Hb Hab Hc He Hce g out.
  assert (loop_body tdiv interpolate_bilinear fs false i ds = Ok (Return out))
    as Hbody.
  { rewrite (loop_body_sample _ _ _ _ _ _ _ Hf Hd Hori), Hpad. cbn.
    by rewrite (crop_remove_margins _ _ _ _ _ _ _ _ Hshape). }
  split; [| split; [exact Hbody |]].
  - pose proof (remove_margins_shape _ _ _ _ (Z.to_nat a) (Z.to_nat b)
                  (Z.to_nat c) (Z.to_nat e) Hshape) as Hg.
    replace (H - a - b) with (Z.of_nat (Z.to_nat H - Z.to_nat b - Z.to_nat a))
      by lia.
    replace (W - c - e) with (Z.of_nat (Z.to_nat W - Z.to_nat e - Z.to_nat c))
      by lia.
    exact Hg.
  - intros -> Hlen. apply postprocess_result_first; [done | | done].
    intros ->. done.
Qed.

(** The scale branch, where the loop runs it; only for index 0 is this the
    result of [postprocess_result].  For a sample whose metadata has no pad,
    scale_factor =
    (w_scale, h_scale) and ori_shape = (oriH, oriW), the body of the loop
    upsamples the tensor to (oriH, oriW) with the bilinear interpolation of
    the tensor library, then divides channel 0 by w_scale and channel 1 by
    h_scale, and attaches the result, of shape (2, oriH, oriW); for the
    sample the loop reaches, index 0, this is the result of
    [postprocess_result]. *)
Theorem scale_factor_upsamples_then_divides fs ds i f d (w h : S)
    (oh ow : Z) g :
  fs !! i = Some f -> ds !! i = Some d ->
  ori_shape (metainfo d) = Some [oh; ow] ->
  pad (metainfo d) = None ->
  scale_factor (metainfo d) = Some (Some w, Some h) ->
  interpolate_bilinear f (oh, ow) = Ok g ->
  has_shape g 2 oh ow ->
  exists plane0 plane1 : list (list R),
    g = [plane0; plane1] /\
    let g' := [div_plane tdiv w plane0; div_plane tdiv h plane1] in
    let out := <[i := set_data (pred_flow_fw g') d]> ds in
    has_shape g' 2 oh ow /\
    loop_body tdiv interpolate_bilinear fs false i ds = Ok (Return out) /\
    (i = 0%nat -> length fs = length ds ->
     postprocess_result tdiv interpolate_bilinear fs (Some ds)
       = Ok (Some out)).
Proof.
  intros Hf Hd Hori Hpad Hscale Hg Hshape.
  destruct (has_shape_two_channels _ _ _ Hshape) as (plane0 & plane1 & ->).
  exists plane0, plane1. split; [done |]. intros g' out.
  assert (loop_body tdiv interpolate_bilinear fs false i ds = Ok (Return out))
    as Hbody.
  { rewrite (loop_body_sample _ _ _ _ _ _ _ Hf Hd Hori), Hpad, Hscale. cbn.
    by rewrite Hg. }
  split; [| split; [exact Hbody |]].
  - destruct Hshape as [_ Hplanes].
    apply Forall_cons in Hplanes as [H0 Hplanes].
    apply Forall_cons in Hplanes as [H1 _].
    split; [done |].
    apply Forall_cons; split; [by apply div_plane_shape |].
    apply Forall_cons; split; [by apply div_plane_shape | constructor].
  - intros -> Hlen. apply postprocess_result_first; [done | | done].
    intros ->. done.
Qed.

(** The precedence of the pad, where the loop runs its body; only for
    index 0 is this the result of [postprocess_result].  For a sample whose
    metadata has both pad and scale_factor, the body of the loop attaches
    the cropped tensor: the scale factors and the interpolation play no
    part in the result. *)
Theorem pad_takes_precedence_over_scale_factor fs ds i f d p (w h : S)
    (oh ow : Z) :
  fs !! i = Some f -> ds !! i = Some d ->
  ori_shape (metainfo d) = Some [oh; ow] ->
  pad (metainfo d) = Some p ->
  scale_factor (metainfo d) = Some (Some w, Some h) ->
  let g := crop f (shape_hw f).1 (shape_hw f).2 p in
  let out := <[i := set_data (pred_flow_fw g) d]> ds in
  loop_body tdiv interpolate_bilinear fs false i ds = Ok (Return out) /\
  (i = 0%nat -> length fs = length ds ->
   postprocess_result tdiv interpolate_bilinear fs (Some ds) = Ok (Some out)).
Proof.
  intros Hf Hd Hori Hpad Hscale g out.
  assert (loop_body tdiv interpolate_bilinear fs false i ds = Ok (Return out))
    as Hbody.
  { by rewrite (loop_body_sample _ _ _ _ _ _ _ Hf Hd Hori), Hpad. }
  split; [exact Hbody |].
  intros -> Hlen. apply postprocess_result_first; [done | | done].
  intros ->. done.
Qed.

End PostProcessorFacts.

(** ** The annotation loader *)

(** A pixel divided by 255 lies between 0 and 1, in binary64 arithmetic. *)
Lemma div255_range (px : Byte.byte) :
  PrimFloat.leb 0 (div255 px) = true /\ PrimFloat.leb (div255 px) 1 = true.
Proof. destruct px; vm_compute; split; reflexivity. Qed.

Section LoaderFacts.

Context {Flow Mask F32 : Type}.
Variable file_contents : string -> res (list Byte.byte).
Variable flow_from_bytes : list Byte.byte -> string -> res Flow.
Variable sparse_flow_from_bytes : list Byte.byte -> res (Flow * Mask).
Variable imfrombytes_grayscale : list Byte.byte -> res (list (list Byte.byte)).
Variable astype_float32 : float -> F32.

Implicit Types (r : gmap string (value Flow Mask F32)) (log : list string).

Local Abbreviation load_flow := (_load_flow file_contents flow_from_bytes).
Local Abbreviation load_sparse_flow :=
  (_load_sparse_flow file_contents sparse_flow_from_bytes).
Local Abbreviation load_occ :=
  (_load_occ file_contents imfrombytes_grayscale astype_float32).
Local Abbreviation run_transform :=
  (transform file_contents flow_from_bytes sparse_flow_from_bytes
     imfrombytes_grayscale astype_float32).
Local Abbreviation occ_loaded' :=
  (occ_loaded file_contents imfrombytes_grayscale astype_float32).

Local Ltac io_unfold :=
  unfold mbind, io_bind, mret, io_ret, lift, raise, file_client_get, last3
    in *.

(** In dense mode a missing flow path is not an error: [None] is stored. *)
Lemma load_flow_absent r log :
  dict_get r "flow_fw_path" = VNone -> dict_get r "flow_bw_path" = VNone ->
  load_flow r log
    = (Ok (<["gt_flow_bw" := VNone]> (<["gt_flow_fw" := VNone]> r)), log).
Proof. intros Hfw Hbw. unfold _load_flow. by rewrite Hfw, Hbw. Qed.

(** In sparse mode a missing forward path leaves [valid] unbound. *)
Lemma load_sparse_flow_absent r log :
  dict_get r "flow_fw_path" = VNone ->
  load_sparse_flow r log = (Raise (UnboundLocalError "valid"), log).
Proof. intros Hfw. unfold _load_sparse_flow. by rewrite Hfw. Qed.

Lemma load_sparse_flow_present r log path bytes fl valid :
  r !! "flow_fw_path" = Some (VStr path) ->
  file_contents path = Ok bytes ->
  sparse_flow_from_bytes bytes = Ok (fl, valid) ->
  load_sparse_flow r log
    = (Ok (<["gt_valid" := VMask valid]>
             (<["gt_flow_bw" := VNone]> (<["gt_flow_fw" := VFlow fl]> r))),
       log ++ [path]).
Proof.
  intros Hfw Hfile Hdec. unfold _load_sparse_flow, dict_get. rewrite Hfw.
  cbn. io_unfold. by rewrite Hfile, Hdec.
Qed.

(** The flow step writes the keys 'gt_flow_fw', 'gt_flow_bw' and 'gt_valid'
    only. *)
Lemma load_flow_other_keys r log r1 log1 (k : string) :
  load_flow r log = (Ok r1, log1) ->
  k <> "gt_flow_fw" -> k <> "gt_flow_bw" -> r1 !! k = r !! k.
Proof.
  unfold _load_flow. io_unfold. intros Hrun Hfw Hbw.
  repeat case_match; simplify_eq; by rewrite !lookup_insert_ne.
Qed.

Lemma load_sparse_flow_other_keys r log r1 log1 (k : string) :
  load_sparse_flow r log = (Ok r1, log1) ->
  k <> "gt_flow_fw" -> k <> "gt_flow_bw" -> k <> "gt_valid" ->
  r1 !! k = r !! k.
Proof.
  unfold _load_sparse_flow. io_unfold. intros Hrun Hfw Hbw Hv.
  repeat case_match; simplify_eq; by rewrite !lookup_insert_ne.
Qed.

(** The occlusion step writes the keys 'gt_occ_fw' and 'gt_occ_bw' only. *)
Lemma load_occ_other_keys r log r1 log1 (k : string) :
  load_occ r log = (Ok r1, log1) ->
  k <> "gt_occ_fw" -> k <> "gt_occ_bw" -> r1 !! k = r !! k.
Proof.
  unfold _load_occ. io_unfold. intros Hrun Hfw Hbw.
  repeat case_match; simplify_eq; by rewrite !lookup_insert_ne.
Qed.

(** The occlusion step, path by path. *)
Lemma load_occ_loaded r log fw bw reads_fw reads_bw :
  occ_loaded' (dict_get r "occ_fw_path") fw reads_fw ->
  occ_loaded' (dict_get r "occ_bw_path") bw reads_bw ->
  load_occ r log
    = (Ok (<["gt_occ_bw" := bw]> (<["gt_occ_fw" := fw]> r)),
       log ++ reads_fw ++ reads_bw).
Proof.
  intros Hfw Hbw. unfold _load_occ.
  destruct Hfw as [-> | pf bf imf -> Hpf Himf];
    destruct Hbw as [-> | pb bb imb -> Hpb Himb];
    cbn; io_unfold; rewrite ?Hpf; cbn; rewrite ?Himf; cbn;
    rewrite ?Hpb; cbn; rewrite ?Himb; cbn;
    by rewrite ?app_nil_r, <- ?app_assoc.
Qed.

(** C2 (failing input).  Sparse mode on a record without 'flow_fw_path':
    the transform raises [UnboundLocalError] for [valid] instead of storing
    [None], whatever the occlusion flag; nothing has been read. *)
Theorem sparse_transform_raises_without_forward_path (occ : bool) log :
  transform file_contents flow_from_bytes sparse_flow_from_bytes
    imfrombytes_grayscale astype_float32
    {| with_occ := occ; sparse := true |} ∅ log
    = (Raise (UnboundLocalError "valid"), log).
Proof. reflexivity. Qed.

(** C7.  Sparse mode on a record whose 'flow_fw_path' is a path that the
    file client and the sparse decoder accept: the flow step reads that one
    file and stores the decoded flow under 'gt_flow_fw', its validity mask
    under 'gt_valid' and [None] under 'gt_flow_bw'; the occlusion step, when
    enabled, leaves the three keys as they are. *)
Theorem sparse_loads_forward_flow_only self r log path bytes fl valid :
  sparse self = true ->
  r !! "flow_fw_path" = Some (VStr path) ->
  file_contents path = Ok bytes ->
  sparse_flow_from_bytes bytes = Ok (fl, valid) ->
  let r1 := <["gt_valid" := VMask valid]>
              (<["gt_flow_bw" := VNone]> (<["gt_flow_fw" := VFlow fl]> r)) in
  transform file_contents flow_from_bytes sparse_flow_from_bytes
    imfrombytes_grayscale astype_float32 self r log
    = (if with_occ self
       then _load_occ file_contents imfrombytes_grayscale astype_float32 r1
              (log ++ [path])
       else (Ok r1, log ++ [path])) /\
  forall r' log',
    transform file_contents flow_from_bytes sparse_flow_from_bytes
      imfrombytes_grayscale astype_float32 self r log = (Ok r', log') ->
    r' !! "gt_flow_fw" = Some (VFlow fl) /\
    r' !! "gt_valid" = Some (VMask valid) /\
    r' !! "gt_flow_bw" = Some VNone.
Proof.
  intros Hsparse Hfw Hfile Hdec r1.
  assert (run_transform self r log
          = (if with_occ self then load_occ r1 (log ++ [path])
             else (Ok r1, log ++ [path]))) as Hrun.
  { unfold transform. rewrite Hsparse.
    unfold mbind at 1. unfold io_bind.
    rewrite (load_sparse_flow_present _ _ _ _ _ _ Hfw Hfile Hdec).
    by destruct (with_occ self). }
  split; [exact Hrun |].
  intros r' log'. rewrite Hrun.
  assert (r1 !! "gt_flow_fw" = Some (VFlow fl) /\
          r1 !! "gt_valid" = Some (VMask valid) /\
          r1 !! "gt_flow_bw" = Some VNone) as Hr1.
  { unfold r1. repeat split; by simplify_map_eq. }
  destruct (with_occ self).
  - intros Hocc.
    rewrite !(load_occ_other_keys _ _ _ _ _ Hocc) by done. exact Hr1.
  - intros [= <- <-]. exact Hr1.
Qed.


End LoaderFacts.

(** ** The sequence loss *)

Section SequenceLossFacts.

Context {Pred GT : Type}.
Variable iteration_loss : Pred -> GT -> Q.

(** The last of [N] iterations has weight 1, whatever [gamma]. *)
Lemma iteration_weight_last (gamma : Q) (N : nat) :
  (iteration_weight gamma N (N - 1) == 1)%Q.
Proof.
  unfold iteration_weight.
  replace (Z.of_nat (N - 1 - (N - 1))) with 0 by lia. reflexivity.
Qed.

Lemma iteration_weight_gamma_one (N i : nat) :
  (iteration_weight 1 N i == 1)%Q.
Proof. unfold iteration_weight. apply Qpower_1. Qed.

Lemma Qsum_imap_unweighted (f : nat -> Pred -> Q) (g : Pred -> Q)
    (preds : list Pred) :
  (forall i p, f i p == g p)%Q ->
  (Qsum (imap f preds) == Qsum (g <$> preds))%Q.
Proof.
  revert f. induction preds as [| p preds IH]; intros f Hfg; [reflexivity |].
  cbn. rewrite Hfg. apply Qplus_comp; [reflexivity |].
  apply IH. intros i q. apply Hfg.
Qed.

(** C9.  With gamma = 1 the sequence loss is the sum of the losses of the
    iterations. *)
Theorem sequence_loss_gamma_one_is_unweighted_sum (preds : list Pred)
    (gt : GT) :
  (sequence_loss iteration_loss 1 preds gt
   == Qsum ((fun pred => iteration_loss pred gt) <$> preds))%Q.
Proof.
  unfold sequence_loss. apply Qsum_imap_unweighted. intros i p.
  rewrite iteration_weight_gamma_one. apply Qmult_1_l.
Qed.

End SequenceLossFacts.

(** ** Examples *)

Section Examples.

Import Example.

(** pad = ((2, 2), (3, 3)) on a tensor of shape (2, 5, 7) leaves shape
    (2, 1, 1): the element at row 2, column 3 of each channel. *)
Lemma pad_crops_recorded_margins_witness :
  let f := ramp 2 5 7 in
  let d := meta (Some ((2, 2), (3, 3))) None [1; 1] in
  let g := [[[23%Q]]; [[123%Q]]] in
  has_shape g 2 (5 - 2 - 2) (7 - 3 - 3) /\
  postprocess_result qdiv interpolate [f] (Some [d])
    = Ok (Some [set_data (pred_flow_fw g) d]).
Proof.
  intros f d g.
  assert (has_shape f 2 5 7) as Hshape.
  { split; [reflexivity | repeat constructor]. }
  destruct (pad_crops_recorded_margins qdiv interpolate [f] [d] 0 f d
              2 2 3 3 1 1 5 7 eq_refl eq_refl Hshape eq_refl eq_refl)
    as (Hg & _ & Hpost); try lia.
  split; [exact Hg | exact (Hpost eq_refl eq_refl)].
Defined.

(** scale_factor = (1/2, 1/2) and ori_shape = (2, 4) on a tensor of shape
    (2, 1, 2): the tensor is upsampled to (2, 2, 4) and both channels are
    doubled. *)
Lemma scale_factor_upsamples_then_divides_witness :
  let f := [[[0; 1]]; [[100; 101]]]%Q in
  let d := meta None (Some (Some (1 # 2), Some (1 # 2))) [2; 4] in
  let g := [[[0; 1 # 4; 3 # 4; 1]; [0; 1 # 4; 3 # 4; 1]];
            [[100; 401 # 4; 403 # 4; 101]; [100; 401 # 4; 403 # 4; 101]]]%Q in
  let g' := [[[0; 1 # 2; 3 # 2; 2]; [0; 1 # 2; 3 # 2; 2]];
             [[200; 401 # 2; 403 # 2; 202]; [200; 401 # 2; 403 # 2; 202]]]%Q in
  interpolate f (2, 4) = Ok g /\
  has_shape g' 2 2 4 /\
  postprocess_result qdiv interpolate [f] (Some [d])
    = Ok (Some [set_data (pred_flow_fw g') d]).
Proof.
  intros f d g g'.
  assert (has_shape g 2 2 4) as Hshape.
  { split; [reflexivity | repeat constructor]. }
  destruct (scale_factor_upsamples_then_divides qdiv interpolate [f] [d] 0
              f d (1 # 2)%Q (1 # 2)%Q 2 4 g
              eq_refl eq_refl eq_refl eq_refl eq_refl eq_refl Hshape)
    as (plane0 & plane1 & Heq & Hg' & _ & Hpost).
  injection Heq as <- <-.
  split; [reflexivity | split; [exact Hg' | exact (Hpost eq_refl eq_refl)]].
Defined.

(** pad and scale_factor together, with an interpolation that always fails:
    the call succeeds with the cropped tensor. *)
Lemma pad_takes_precedence_over_scale_factor_witness :
  let f := ramp 2 5 7 in
  let d := meta (Some ((2, 2), (3, 3))) (Some (Some (1 # 2), Some (1 # 2)))%Q
             [1; 1] in
  postprocess_result qdiv no_interpolate [f] (Some [d])
    = Ok (Some [set_data (pred_flow_fw [[[23%Q]]; [[123%Q]]]) d]).
Proof.
  intros f d.
  exact (proj2 (pad_takes_precedence_over_scale_factor qdiv no_interpolate
                  [f] [d] 0 f d ((2, 2), (3, 3)) (1 # 2)%Q (1 # 2)%Q 1 1
                  eq_refl eq_refl eq_refl eq_refl eq_refl)
               eq_refl eq_refl).
Defined.

(** Sparse mode on a record with a forward and a backward path: one file is
    read, and the backward flow is [None]. *)
Lemma sparse_loads_forward_flow_only_witness :
  let r : gmap string (value (list Byte.byte) (list bool) float) :=
    {[ "flow_fw_path" := VStr "000000_10.png";
       "flow_bw_path" := VStr "000000_10.png" ]} in
  transform files decode_flow decode_sparse decode_gray (fun x => x)
    {| with_occ := false; sparse := true |} r []
    = (Ok (<["gt_valid" := VMask [false; true; true]]>
             (<["gt_flow_bw" := VNone]>
                (<["gt_flow_fw" := VFlow [x00; x80; xff]%byte]> r))),
       ["000000_10.png"]).
Proof.
  intros r.
  exact (proj1 (sparse_loads_forward_flow_only files decode_flow decode_sparse
                  decode_gray (fun x => x)
                  {| with_occ := false; sparse := true |} r []
                  "000000_10.png" [x00; x80; xff]%byte [x00; x80; xff]%byte
                  [false; true; true] eq_refl eq_refl eq_refl eq_refl)).
Defined.


End Examples.

(** * Further properties *)

(** ** The flow post-processor: errors, branches and invariants *)

Section PostProcessorMore.

Context {R S : Type}.
Variable tdiv : R -> S -> R.
Variable interpolate_bilinear :
  list (list (list R)) -> Z * Z -> res (list (list (list R))).

Implicit Types (f g : list (list (list R))) (fs : list (list (list (list R)))).
Implicit Types (d : FlowDataSample R S) (ds : list (FlowDataSample R S)).

Lemma trim_nothing {A} (l : list A) : trim 0 0 l = l.
Proof. unfold trim. rewrite Nat.sub_0_r, take_ge by lia. done. Qed.

Lemma remove_margins_nothing f : remove_margins 0 0 0 0 f = f.
Proof.
  unfold remove_margins. rewrite <- (list_fmap_id f) at 2.
  apply list_fmap_ext. intros _ ch _. rewrite trim_nothing.
  rewrite <- (list_fmap_id ch) at 2.
  apply list_fmap_ext. intros _ row _. apply trim_nothing.
Qed.

(** When the body succeeds with metadata, the sample it worked on exists on
    both sides, its [ori_shape] has two entries, and the record is updated
    by [set_data] with a prediction. *)
Lemma loop_body_success_inv fs i ds r :
  loop_body tdiv interpolate_bilinear fs false i ds = Ok r ->
  exists f d (oh ow : Z) g,
    fs !! i = Some f /\ ds !! i = Some d /\
    ori_shape (metainfo d) = Some [oh; ow] /\
    r = Return (<[i := set_data (pred_flow_fw g) d]> ds).
Proof.
  unfold loop_body, div_channel, getitem, unpack2, mbind, res_bind.
  intros Hb.
  repeat case_match; simplify_eq; eauto 10.
Qed.

Lemma set_data_twice g d :
  set_data (pred_flow_fw g) (set_data (pred_flow_fw g) d)
  = set_data (pred_flow_fw g) d.
Proof.
  unfold set_data. cbn. f_equal.
  by rewrite (assoc_L (∪)), (idemp_L (∪)).
Qed.

(** X1.  When the first record, the one the loop processes, has no
    [ori_shape], or one that has not exactly two entries, the call raises
    [KeyError] or [ValueError], also when a pad is recorded and the
    original shape would not be used.  The records after the first are not
    inspected. *)
Theorem ori_shape_must_have_two_entries fs ds f d :
  length fs = length ds ->
  fs !! 0%nat = Some f -> ds !! 0%nat = Some d ->
  (forall oh ow : Z, ori_shape (metainfo d) <> Some [oh; ow]) ->
  postprocess_result tdiv interpolate_bilinear fs (Some ds)
    = Raise (match ori_shape (metainfo d) with
             | None => KeyError "ori_shape"
             | Some _ => ValueError
             end).
Proof.
  intros Hlen Hf Hd Hshape. unfold postprocess_result.
  destruct (decide (length fs = length ds)) as [_ | []]; [| done].
  destruct fs as [| f0 fs']; [done |]. cbn -[loop_body].
  unfold loop_body, getitem. rewrite Hd. cbn.
  destruct (ori_shape (metainfo d)) as [shape |]; [| done]. cbn.
  destruct shape as [| oh [| ow [| x shape']]]; try done.
  by destruct (Hshape oh ow).
Qed.

(** X2.  When the first record, the one the loop processes, has no pad and
    not both scale factors, the first prediction is attached to it as it
    is. *)
Theorem no_pad_no_scale_keeps_prediction fs ds f d (oh ow : Z) :
  length fs = length ds ->
  fs !! 0%nat = Some f -> ds !! 0%nat = Some d ->
  ori_shape (metainfo d) = Some [oh; ow] ->
  pad (metainfo d) = None ->
  (forall w h : S, scale_factor (metainfo d) <> Some (Some w, Some h)) ->
  postprocess_result tdiv interpolate_bilinear fs (Some ds)
    = Ok (Some (<[0%nat := set_data (pred_flow_fw f) d]> ds)).
Proof.
  intros Hlen Hf Hd Hori Hpad Hscale.
  apply postprocess_result_first; [done | by intros -> |].
  rewrite (loop_body_sample _ _ _ _ _ _ _ _ _ Hf Hd Hori), Hpad.
  destruct (scale_factor (metainfo d)) as [[[w |] [h |]] |]; try done.
  by destruct (Hscale w h).
Qed.

(** X3.  In the scale branch only the channels 0 and 1 of the interpolated
    tensor are divided; further channels are attached as interpolated. *)
Theorem scale_divides_first_two_channels_only fs ds f d (w h : S)
    (oh ow : Z) (p0 p1 : list (list R)) (rest : list (list (list R))) :
  length fs = length ds ->
  fs !! 0%nat = Some f -> ds !! 0%nat = Some d ->
  ori_shape (metainfo d) = Some [oh; ow] ->
  pad (metainfo d) = None ->
  scale_factor (metainfo d) = Some (Some w, Some h) ->
  interpolate_bilinear f (oh, ow) = Ok (p0 :: p1 :: rest) ->
  postprocess_result tdiv interpolate_bilinear fs (Some ds)
    = Ok (Some (<[0%nat := set_data
                    (pred_flow_fw
                       (div_plane tdiv w p0 :: div_plane tdiv h p1 :: rest))
                    d]> ds)).
Proof.
  intros Hlen Hf Hd Hori Hpad Hscale Hg.
  apply postprocess_result_first; [done | by intros -> |].
  rewrite (loop_body_sample _ _ _ _ _ _ _ _ _ Hf Hd Hori), Hpad, Hscale.
  cbn. by rewrite Hg.
Qed.

(** X4.  In the scale branch an interpolated tensor with fewer than two
    channels makes the call raise [IndexError]. *)
Theorem scale_needs_two_channels fs ds f d (w h : S) (oh ow : Z) g :
  length fs = length ds ->
  fs !! 0%nat = Some f -> ds !! 0%nat = Some d ->
  ori_shape (metainfo d) = Some [oh; ow] ->
  pad (metainfo d) = None ->
  scale_factor (metainfo d) = Some (Some w, Some h) ->
  interpolate_bilinear f (oh, ow) = Ok g ->
  (length g < 2)%nat ->
  postprocess_result tdiv interpolate_bilinear fs (Some ds) = Raise IndexError.
Proof.
  intros Hlen Hf Hd Hori Hpad Hscale Hg Hch. unfold postprocess_result.
  destruct (decide (length fs = length ds)) as [_ | []]; [| done].
  destruct fs as [| f0 fs']; [done |]. cbn -[loop_body].
  rewrite (loop_body_sample _ _ _ _ _ _ _ _ _ Hf Hd Hori), Hpad, Hscale.
  cbn. rewrite Hg. cbn.
  destruct g as [| p0 [| p1 g']]; [done | done | simpl in Hch; lia].
Qed.

(** X5.  A successful call with metadata returns as many records as it was
    given; every record keeps its metainfo and every data field other than
    'pred_flow_fw'; the first record holds a prediction. *)
Theorem postprocess_result_keeps_records fs ds out :
  postprocess_result tdiv interpolate_bilinear fs (Some ds) = Ok (Some out) ->
  length out = length ds /\
  (forall (j : nat) o d,
     out !! j = Some o -> ds !! j = Some d ->
     metainfo o = metainfo d /\
     forall k : string, k <> "pred_flow_fw" -> fields o !! k = fields d !! k) /\
  exists o g, out !! 0%nat = Some o /\
              fields o !! "pred_flow_fw" = Some {| data := g |}.
Proof.
  unfold postprocess_result.
  destruct (decide (length fs = length ds)) as [Hlen |]; [| done].
  destruct fs as [| f fs']; [done |]. cbn -[loop_body].
  destruct (loop_body _ _ _ _ _ _) as [r | e] eqn:Hb; [| done].
  apply loop_body_success_inv in Hb
    as (f0 & d0 & oh & ow & g & Hf & Hd & Hori & ->).
  intros [= <-]. split; [by rewrite length_insert |]. split.
  - intros j o d Ho Hdj. destruct (decide (j = 0%nat)) as [-> | Hj].
    + rewrite list_lookup_insert_eq in Ho by (by eapply lookup_lt_Some).
      simplify_eq. split; [done |]. intros k Hk. cbn.
      rewrite lookup_union_r; [done |]. by apply lookup_singleton_ne.
    + rewrite list_lookup_insert_ne in Ho by done. by simplify_eq.
  - exists (set_data (pred_flow_fw g) d0), g. split.
    + apply list_lookup_insert_eq. by eapply lookup_lt_Some.
    + cbn. apply lookup_union_Some_l, lookup_singleton_eq.
Qed.

(** X6.  The outcome of a call depends on the first prediction only: the
    predictions after it can be replaced by any others, as many. *)
Theorem postprocess_result_reads_first_prediction_only f fs fs'
    (samples : option (list (FlowDataSample R S))) :
  length fs = length fs' ->
  postprocess_result tdiv interpolate_bilinear (f :: fs) samples
  = postprocess_result tdiv interpolate_bilinear (f :: fs') samples.
Proof.
  intros Hlen. unfold postprocess_result. cbn [length]. rewrite Hlen.
  destruct (match samples with
            | Some ds =>
                if decide (Datatypes.S (length fs') = length ds)
                then Ok (ds, false) else Raise AssertionError
            | None => Ok ([], true)
            end) as [[ds only] | e]; [| done].
  cbn -[loop_body].
  assert (loop_body tdiv interpolate_bilinear (f :: fs) only 0 ds
          = loop_body tdiv interpolate_bilinear (f :: fs') only 0 ds) as ->
    by done.
  destruct (loop_body _ _ _ _ _ _) as [r | e] eqn:Hb; [| done].
  by apply loop_body_returns in Hb as [ds' ->].
Qed.

(** A successful call with metadata is a successful first iteration. *)
Lemma postprocess_result_success_inv fs ds out :
  postprocess_result tdiv interpolate_bilinear fs (Some ds) = Ok (Some out) ->
  length fs = length ds /\
  loop_body tdiv interpolate_bilinear fs false 0 ds = Ok (Return out).
Proof.
  unfold postprocess_result.
  destruct (decide (length fs = length ds)) as [Hlen |]; [| done].
  destruct fs as [| f fs']; [done |]. cbn -[loop_body].
  destruct (loop_body _ _ _ _ _ _) as [r | e] eqn:Hb; [| done].
  pose proof Hb as Hr. apply loop_body_returns in Hr as [ds' ->].
  by intros [= <-].
Qed.

(** X7.  For a call that was given records (data_samples is not [None])
    and returned: calling the post-processor again, with the same
    predictions, on the records it returned returns the same records. *)
Theorem postprocess_result_idempotent fs ds out :
  postprocess_result tdiv interpolate_bilinear fs (Some ds) = Ok (Some out) ->
  postprocess_result tdiv interpolate_bilinear fs (Some out) = Ok (Some out).
Proof.
  intros Hrun.
  apply postprocess_result_success_inv in Hrun as [Hlen Hb].
  destruct (loop_body_success_inv _ _ _ _ Hb)
    as (f & d & oh & ow & _ & Hf & Hd & Hori & _).
  rewrite (loop_body_sample _ _ _ _ _ _ _ _ _ Hf Hd Hori) in Hb.
  match type of Hb with
  | mbind _ ?m = _ => destruct m as [g | e] eqn:Hbranch
  end; [| discriminate Hb].
  unfold mbind, res_bind in Hb. injection Hb as <-.
  assert (<[0%nat := set_data (pred_flow_fw g) d]> ds !! 0%nat
          = Some (set_data (pred_flow_fw g) d)) as Hd'.
  { apply list_lookup_insert_eq. by eapply lookup_lt_Some. }
  apply postprocess_result_first;
    [by rewrite length_insert | by intros -> |].
  rewrite (loop_body_sample _ _ _ _ _ _ _ oh ow Hf Hd' Hori).
  change (metainfo (set_data (pred_flow_fw g) d)) with (metainfo d).
  rewrite Hbranch. unfold mbind, res_bind.
  by rewrite list_insert_insert_eq, set_data_twice.
Qed.

(** X8.  A pad of zeros leaves a rectangular prediction as it is. *)
Theorem zero_pad_keeps_prediction fs ds f d (oh ow C H W : Z) :
  length fs = length ds ->
  fs !! 0%nat = Some f -> ds !! 0%nat = Some d ->
  has_shape f C H W -> 0 <= H -> 0 <= W ->
  ori_shape (metainfo d) = Some [oh; ow] ->
  pad (metainfo d) = Some ((0, 0), (0, 0)) ->
  postprocess_result tdiv interpolate_bilinear fs (Some ds)
    = Ok (Some (<[0%nat := set_data (pred_flow_fw f) d]> ds)).
Proof.
  intros Hlen Hf Hd Hshape HH HW Hori Hpad.
  apply postprocess_result_first; [done | by intros -> |].
  rewrite (loop_body_sample _ _ _ _ _ _ _ _ _ Hf Hd Hori), Hpad.
  rewrite (crop_remove_margins f C H W 0 0 0 0 Hshape) by lia.
  change (Z.to_nat 0) with 0%nat. by rewrite remove_margins_nothing.
Qed.

Lemma py_slice_nil {A} (start stop : Z) : py_slice start stop (@nil A) = [].
Proof. unfold py_slice. by rewrite drop_nil, take_nil. Qed.

(** On a rectangular tensor the height and width [crop] is given are those
    of the shape. *)
Lemma crop_shape_hw f (C H W : Z) p :
  has_shape f C H W ->
  crop f (shape_hw f).1 (shape_hw f).2 p = crop f H W p.
Proof.
  intros [_ Hf]. unfold crop, shape_hw. cbn [fst snd].
  destruct f as [| ch0 f']; [done |]. cbn [hd].
  apply Forall_fmap_ext.
  pose proof (Forall_inv Hf) as [Hch0 Hrows0].
  eapply Forall_impl; [exact Hf |]. intros ch [Hch Hrows]. cbn beta.
  rewrite Hch0.
  destruct ch0 as [| row0 ch0'].
  - destruct ch as [| r ch']; [by rewrite !py_slice_nil |].
    simpl length in Hch, Hch0. exfalso. clear -Hch Hch0. lia.
  - cbn [hd]. apply Forall_inv in Hrows0. by rewrite Hrows0.
Qed.

Lemma py_slice_all {A} (l : list A) :
  py_slice 0 (Z.of_nat (length l) - 0) l = l.
Proof. rewrite py_slice_trim by lia. apply trim_nothing. Qed.

(** X9.  A bottom margin larger than the height does not empty the
    prediction and does not raise: the stop of the row slice is negative
    and counts from the end, so the first 2H - b rows are kept. *)
Theorem oversized_bottom_margin_wraps fs ds f d (oh ow C H W b : Z) :
  length fs = length ds ->
  fs !! 0%nat = Some f -> ds !! 0%nat = Some d ->
  has_shape f C H W ->
  ori_shape (metainfo d) = Some [oh; ow] ->
  pad (metainfo d) = Some ((0, b), (0, 0)) ->
  H < b ->
  postprocess_result tdiv interpolate_bilinear fs (Some ds)
    = Ok (Some (<[0%nat := set_data
                    (pred_flow_fw (take (Z.to_nat (2 * H - b)) <$> f)) d]>
                  ds)).
Proof.
  intros Hlen Hf Hd Hshape Hori Hpad Hb.
  apply postprocess_result_first; [done | by intros -> |].
  rewrite (loop_body_sample _ _ _ _ _ _ _ _ _ Hf Hd Hori), Hpad.
  rewrite (crop_shape_hw f C H W _ Hshape).
  assert (crop f H W ((0, b), (0, 0)) = take (Z.to_nat (2 * H - b)) <$> f)
    as ->; [| done].
  destruct Hshape as [_ Hall]. unfold crop. cbn [fst snd].
  apply Forall_fmap_ext. eapply Forall_impl; [exact Hall |].
  intros ch [Hch Hrows]. cbn beta.
  assert (py_slice 0 (H - b) ch = take (Z.to_nat (2 * H - b)) ch) as ->.
  { unfold py_slice, slice_bound. rewrite Hch.
    destruct (Z.ltb_spec 0 0); [lia |].
    destruct (Z.ltb_spec (H - b) 0); [| lia].
    replace (Z.to_nat (0 `min` H)) with 0%nat by lia.
    rewrite drop_0. f_equal. lia. }
  rewrite <- (list_fmap_id (take _ ch)) at 2.
  apply Forall_fmap_ext, Forall_take.
  eapply Forall_impl; [exact Hrows |]. intros row <-. apply py_slice_all.
Qed.

(** X10.  Margins that together cover the height do not raise: every
    channel of the attached prediction has no row. *)
Theorem overlapping_margins_leave_no_row fs ds f d
    (oh ow C H W a b c e : Z) :
  length fs = length ds ->
  fs !! 0%nat = Some f -> ds !! 0%nat = Some d ->
  has_shape f C H W ->
  ori_shape (metainfo d) = Some [oh; ow] ->
  pad (metainfo d) = Some ((a, b), (c, e)) ->
  0 <= a -> 0 <= b <= H -> H <= a + b ->
  postprocess_result tdiv interpolate_bilinear fs (Some ds)
    = Ok (Some (<[0%nat := set_data
                    (pred_flow_fw ((fun _ => []) <$> f)) d]> ds)).
Proof.
  intros Hlen Hf Hd Hshape Hori Hpad Ha Hb Hab.
  apply postprocess_result_first; [done | by intros -> |].
  rewrite (loop_body_sample _ _ _ _ _ _ _ _ _ Hf Hd Hori), Hpad.
  rewrite (crop_shape_hw f C H W _ Hshape).
  assert (crop f H W ((a, b), (c, e)) = (fun _ => []) <$> f) as ->; [| done].
  destruct Hshape as [_ Hall]. unfold crop. cbn [fst snd].
  apply Forall_fmap_ext. eapply Forall_impl; [exact Hall |].
  intros ch [Hch Hrows]. cbn beta.
  assert (py_slice a (H - b) ch = []) as ->; [| done].
  unfold py_slice, slice_bound. rewrite Hch.
  destruct (Z.ltb_spec a 0); [lia |].
  destruct (Z.ltb_spec (H - b) 0); [lia |].
  replace (Z.to_nat ((H - b) `min` H - a `min` H)) with 0%nat by lia.
  done.
Qed.

End PostProcessorMore.

(** ** Prediction from features *)

Section PredictByFeatFacts.

Context {R S D : Type}.
Variable tdiv : R -> S -> R.
Variable interpolate_bilinear :
  list (list (list R)) -> Z * Z -> res (list (list (list R))).
Variable tmul : R -> D -> R.
Variable interpolate_batch :
  list (list (list (list R))) -> Z * Z -> res (list (list (list (list R)))).
Variable img_shape : FlowDataSample R S -> option (list Z).

Implicit Types (f g : list (list (list R))) (fs : list (list (list (list R)))).
Implicit Types (d : FlowDataSample R S) (ds : list (FlowDataSample R S)).

(** One tensor multiplied by [flow_div]. *)
Local Abbreviation scaled flow_div f :=
  ((fun ch : list (list R) =>
      (fun row : list R => (fun x => tmul x flow_div) <$> row) <$> ch) <$> f).

Lemma scaled_shape (flow_div : D) f (C H W : Z) :
  has_shape f C H W -> has_shape (scaled flow_div f) C H W.
Proof.
  intros [HC Hall]. split; [by rewrite length_fmap |].
  apply Forall_fmap. eapply Forall_impl; [exact Hall |].
  intros ch [Hch Hrows]. cbn. split; [by rewrite length_fmap |].
  apply Forall_fmap. eapply Forall_impl; [exact Hrows |].
  intros row Hrow. cbn. by rewrite length_fmap.
Qed.

Lemma py_slice_first_two {A} (x y : A) (rest : list A) :
  py_slice 0 2 (x :: y :: rest) = [x; y].
Proof.
  unfold py_slice, slice_bound. cbn [length].
  destruct (Z.ltb_spec 0 0); [lia |]. destruct (Z.ltb_spec 2 0); [lia |].
  replace (Z.to_nat (0 `min` _)) with 0%nat by lia.
  replace (Z.to_nat (2 `min` _ - 0 `min` _)) with 2%nat by lia.
  done.
Qed.

Lemma py_slice_first_two_short {A} (l : list A) (x y : A) :
  py_slice 0 2 l = [x; y] -> exists rest, l = x :: y :: rest.
Proof.
  unfold py_slice, slice_bound.
  destruct (Z.ltb_spec 0 0); [lia |]. destruct (Z.ltb_spec 2 0); [lia |].
  destruct l as [| x' [| y' rest]]; cbn [length].
  - by rewrite drop_nil, take_nil.
  - replace (Z.to_nat (0 `min` _)) with 0%nat by lia.
    replace (Z.to_nat (2 `min` _ - 0 `min` _)) with 1%nat by lia. done.
  - replace (Z.to_nat (0 `min` _)) with 0%nat by lia.
    replace (Z.to_nat (2 `min` _ - 0 `min` _)) with 2%nat by lia.
    intros [= -> ->]. by exists rest.
Qed.

(** X11.  Without metadata the network output is multiplied by [flow_div]
    before it is wrapped, and only the first sample of the batch is
    returned; the batch interpolation plays no part. *)
Theorem predict_by_feat_without_samples (flow_div : D) f fs :
  predict_by_feat tdiv interpolate_bilinear tmul interpolate_batch img_shape
    flow_div (f :: fs) None
  = Ok (Some [set_data (pred_flow_fw (scaled flow_div f)) new_sample]).
Proof. reflexivity. Qed.

(** X12.  With an empty list of samples [predict_by_feat] raises
    [IndexError] whatever the batch, an empty one included, where
    [postprocess_result] itself returns [None]. *)
Theorem predict_by_feat_empty_samples (flow_div : D) fs :
  predict_by_feat tdiv interpolate_bilinear tmul interpolate_batch img_shape
    flow_div fs (Some [])
  = Raise IndexError
  /\ postprocess_result tdiv interpolate_bilinear [] (Some []) = Ok None.
Proof. split; reflexivity. Qed.

(** X13.  When the first sample has no 'img_shape', or one with fewer than
    two entries, the call raises [KeyError] or [ValueError] before anything
    is interpolated. *)
Theorem predict_by_feat_needs_img_shape (flow_div : D) fs d ds :
  (forall (H W : Z) rest, img_shape d <> Some (H :: W :: rest)) ->
  predict_by_feat tdiv interpolate_bilinear tmul interpolate_batch img_shape
    flow_div fs (Some (d :: ds))
  = Raise (match img_shape d with
           | None => KeyError "img_shape"
           | Some _ => ValueError
           end).
Proof.
  intros Hshape. unfold predict_by_feat. cbn.
  destruct (img_shape d) as [shape |]; [| done]. cbn.
  destruct (unpack2 (py_slice 0 2 shape)) as [[H W] | e] eqn:Hun.
  - unfold unpack2 in Hun.
    destruct (py_slice 0 2 shape) as [| x [| y [| z l]]] eqn:Hsl; try done.
    apply py_slice_first_two_short in Hsl as [rest ->].
    by destruct (Hshape x y rest).
  - unfold unpack2 in Hun. by repeat case_match; simplify_eq.
Qed.

(** The metadata branch, for an 'img_shape' of at least two entries. *)
Lemma predict_by_feat_resizes_to_first_img_shape_aux (flow_div : D) fs d ds
    (H W : Z) (rest : list Z) :
  img_shape d = Some (H :: W :: rest) ->
  predict_by_feat tdiv interpolate_bilinear tmul interpolate_batch img_shape
    flow_div fs (Some (d :: ds))
  = (resized ← interpolate_batch fs (H, W);
     postprocess_result tdiv interpolate_bilinear
       (mul_flow_div tmul flow_div resized) (Some (d :: ds))).
Proof.
  intros Hshape. unfold predict_by_feat. cbn [getitem lookup list_lookup].
  cbn [mbind res_bind]. rewrite Hshape. cbn [mbind res_bind].
  by rewrite py_slice_first_two.
Qed.

Lemma py_slice_first_two_take {A} (l : list A) : py_slice 0 2 l = take 2 l.
Proof.
  unfold py_slice, slice_bound.
  destruct (Z.ltb_spec 0 0); [lia |]. destruct (Z.ltb_spec 2 0); [lia |].
  replace (Z.to_nat (0 `min` _)) with 0%nat by lia. rewrite drop_0.
  destruct (decide (2 <= length l)%nat) as [Hl | Hl].
  - f_equal. lia.
  - rewrite !take_ge by lia. done.
Qed.

(** X14.  Of the metadata entry 'img_shape' only the first two entries of
    the first sample's value are read: two sources of image shapes that
    agree there, whatever further entries and whatever shapes for the other
    samples they give, lead to the same outcome, result or error. *)
Theorem predict_by_feat_reads_two_entries_of_first_img_shape
    (img_shape' : FlowDataSample R S -> option (list Z)) (flow_div : D)
    fs d ds :
  take 2 <$> img_shape d = take 2 <$> img_shape' d ->
  predict_by_feat tdiv interpolate_bilinear tmul interpolate_batch img_shape
    flow_div fs (Some (d :: ds))
  = predict_by_feat tdiv interpolate_bilinear tmul interpolate_batch
      img_shape' flow_div fs (Some (d :: ds)).
Proof.
  intros Hsame. unfold predict_by_feat.
  cbn [getitem lookup list_lookup]. cbn [mbind res_bind].
  destruct (img_shape d) as [sh |], (img_shape' d) as [sh' |];
    try discriminate Hsame; [| done].
  cbn [mbind res_bind]. rewrite !py_slice_first_two_take.
  injection Hsame as Hsame. by rewrite Hsame.
Qed.

(** X15.  With metadata that records a pad: the first prediction is
    interpolated to the image shape (H, W), multiplied by [flow_div] and
    cropped by the pad; the attached tensor has shape
    (2, H-a-b, W-c-e). *)
Theorem predict_by_feat_resizes_scales_crops (flow_div : D) fs d ds
    (H W oh ow a b c e : Z) (rest : list Z) g gs :
  img_shape d = Some (H :: W :: rest) ->
  interpolate_batch fs (H, W) = Ok (g :: gs) ->
  length gs = length ds ->
  has_shape g 2 H W ->
  ori_shape (metainfo d) = Some [oh; ow] ->
  pad (metainfo d) = Some ((a, b), (c, e)) ->
  0 <= a -> 0 <= b -> a + b <= H -> 0 <= c -> 0 <= e -> c + e <= W ->
  let out := remove_margins (Z.to_nat a) (Z.to_nat b) (Z.to_nat c)
               (Z.to_nat e) (scaled flow_div g) in
  has_shape out 2 (H - a - b) (W - c - e) /\
  predict_by_feat tdiv interpolate_bilinear tmul interpolate_batch img_shape
    flow_div fs (Some (d :: ds))
  = Ok (Some (set_data (pred_flow_fw out) d :: ds)).
Proof.
  intros Hshape Hint Hlen Hg Hori Hpad Ha Hb Hab Hc He Hce out.
  pose proof (scaled_shape flow_div g 2 H W Hg) as Hsg.
  split.
  - pose proof (remove_margins_shape _ _ _ _ (Z.to_nat a) (Z.to_nat b)
                  (Z.to_nat c) (Z.to_nat e) Hsg) as Hout.
    replace (H - a - b) with (Z.of_nat (Z.to_nat H - Z.to_nat b - Z.to_nat a))
      by lia.
    replace (W - c - e) with (Z.of_nat (Z.to_nat W - Z.to_nat e - Z.to_nat c))
      by lia.
    exact Hout.
  - rewrite (predict_by_feat_resizes_to_first_img_shape_aux flow_div fs d ds
               H W rest Hshape), Hint.
    cbn [mbind res_bind mul_flow_div fmap list_fmap].
    change (set_data (pred_flow_fw out) d :: ds)
      with (<[0%nat := set_data (pred_flow_fw out) d]> (d :: ds)).
    apply postprocess_result_first.
    + cbn [length]. by rewrite length_fmap, Hlen.
    + done.
    + erewrite loop_body_sample; [| reflexivity | reflexivity | exact Hori].
      rewrite Hpad.
      by rewrite (crop_remove_margins _ _ _ _ _ _ _ _ Hsg).
Qed.

End PredictByFeatFacts.

(** ** The annotation loader: keys, reads and failures *)

Section LoaderMore.

Context {Flow Mask F32 : Type}.
Variable file_contents : string -> res (list Byte.byte).
Variable flow_from_bytes : list Byte.byte -> string -> res Flow.
Variable sparse_flow_from_bytes : list Byte.byte -> res (Flow * Mask).
Variable imfrombytes_grayscale : list Byte.byte -> res (list (list Byte.byte)).
Variable astype_float32 : float -> F32.

Implicit Types (r : gmap string (value Flow Mask F32)) (log : list string).

Local Abbreviation load_flow := (_load_flow file_contents flow_from_bytes).
Local Abbreviation load_sparse_flow :=
  (_load_sparse_flow file_contents sparse_flow_from_bytes).
Local Abbreviation load_occ :=
  (_load_occ file_contents imfrombytes_grayscale astype_float32).
Local Abbreviation run_transform :=
  (transform file_contents flow_from_bytes sparse_flow_from_bytes
     imfrombytes_grayscale astype_float32).

Local Ltac io_unfold :=
  unfold mbind, io_bind, mret, io_ret, lift, raise, file_client_get, last3
    in *.

Local Ltac solve_member :=
  let p := fresh "p" in
  let Hp := fresh "Hp" in
  intros p Hp;
  repeat (apply elem_of_cons in Hp as [-> | Hp]);
  try (by apply elem_of_nil in Hp);
  first [ eexists; split; [apply list_elem_of_here | eassumption]
        | eexists; split;
          [apply list_elem_of_further, list_elem_of_here | eassumption] ].

Local Ltac solve_reads :=
  unfold reads_within;
  first
    [ exists []; split; [by rewrite app_nil_r |];
      split; [simpl; lia | solve_member]
    | eexists [_]; split; [reflexivity |];
      split; [simpl; lia | solve_member]
    | eexists [_; _]; split; [by rewrite <- app_assoc |];
      split; [simpl; lia | solve_member] ].

Lemma load_flow_reads r log out log' :
  load_flow r log = (out, log') ->
  reads_within r ["flow_fw_path"; "flow_bw_path"] 2 log log'.
Proof.
  unfold _load_flow, dict_get, is_not_none. io_unfold. intros Hrun.
  destruct (r !! "flow_fw_path") as [[| p1 | | |] |] eqn:Hfw;
    destruct (r !! "flow_bw_path") as [[| p2 | | |] |] eqn:Hbw;
    cbn in Hrun; repeat case_match; simplify_eq; solve_reads.
Qed.

Lemma load_sparse_flow_reads r log out log' :
  load_sparse_flow r log = (out, log') ->
  reads_within r ["flow_fw_path"] 1 log log'.
Proof.
  unfold _load_sparse_flow, dict_get, is_not_none. io_unfold. intros Hrun.
  destruct (r !! "flow_fw_path") as [[| p1 | | |] |] eqn:Hfw;
    cbn in Hrun; repeat case_match; simplify_eq; solve_reads.
Qed.

Lemma load_occ_reads r log out log' :
  load_occ r log = (out, log') ->
  reads_within r ["occ_fw_path"; "occ_bw_path"] 2 log log'.
Proof.
  unfold _load_occ, dict_get, is_not_none. io_unfold. intros Hrun.
  destruct (r !! "occ_fw_path") as [[| p1 | | |] |] eqn:Hfw;
    destruct (r !! "occ_bw_path") as [[| p2 | | |] |] eqn:Hbw;
    cbn in Hrun; repeat case_match; simplify_eq; solve_reads.
Qed.

(** X16.  A transform reads at most four files, each of them named in the
    record under one of the four path keys, and only appends to the log of
    reads; this holds when it returns and when it raises. *)
Theorem transform_reads_named_files_only self r log out log' :
  transform file_contents flow_from_bytes sparse_flow_from_bytes
    imfrombytes_grayscale astype_float32 self r log = (out, log') ->
  reads_within r path_keys 4 log log'.
Proof.
  unfold transform. unfold mbind at 1. unfold io_bind. intros Hrun.
  assert (exists n, (n <= 2)%nat /\
            forall o l, (if sparse self then load_sparse_flow r
                         else load_flow r) log = (o, l) ->
            reads_within r ["flow_fw_path"; "flow_bw_path"] n log l)
    as (n & Hn & Hstep).
  { destruct (sparse self).
    - exists 2%nat. split; [lia |]. intros o l Hl.
      apply load_sparse_flow_reads in Hl as (reads & -> & Hlen & Hmem).
      exists reads. split; [done |]. split; [lia |].
      intros p Hp. destruct (Hmem p Hp) as (k & Hk & Hr).
      exists k. split; [| done]. apply list_elem_of_singleton in Hk as ->.
      apply list_elem_of_here.
    - exists 2%nat. split; [lia |]. intros o l Hl.
      by apply load_flow_reads in Hl. }
  destruct ((if sparse self then load_sparse_flow r else load_flow r) log)
    as [[r1 | e] log1] eqn:Hflow.
  - destruct (Hstep _ _ eq_refl) as (reads1 & -> & Hlen1 & Hmem1).
    assert (forall k, k ∈ ["occ_fw_path"; "occ_bw_path"] ->
                      r1 !! k = r !! k) as Hsame.
    { intros k Hk.
      assert (k <> "gt_flow_fw" /\ k <> "gt_flow_bw" /\ k <> "gt_valid")
        as (? & ? & ?).
      { repeat (apply elem_of_cons in Hk as [-> | Hk]); [done | done |].
        by apply elem_of_nil in Hk. }
      destruct (sparse self).
      - by eapply load_sparse_flow_other_keys.
      - by eapply load_flow_other_keys. }
    destruct (with_occ self).
    + apply load_occ_reads in Hrun as (reads2 & -> & Hlen2 & Hmem2).
      exists (reads1 ++ reads2). split; [by rewrite app_assoc |].
      split; [rewrite length_app; lia |].
      intros p [Hp | Hp]%elem_of_app.
      * destruct (Hmem1 p Hp) as (k & Hk & Hr). exists k. split; [| done].
        unfold path_keys.
        repeat (apply elem_of_cons in Hk as [-> | Hk]);
          [set_solver | set_solver | by apply elem_of_nil in Hk].
      * destruct (Hmem2 p Hp) as (k & Hk & Hr). exists k.
        rewrite <- (Hsame k Hk). split; [| done].
        unfold path_keys.
        repeat (apply elem_of_cons in Hk as [-> | Hk]);
          [set_solver | set_solver | by apply elem_of_nil in Hk].
    + injection Hrun as <- <-.
      exists reads1. split; [done |]. split; [lia |].
      intros p Hp. destruct (Hmem1 p Hp) as (k & Hk & Hr). exists k.
      split; [| done]. unfold path_keys.
      repeat (apply elem_of_cons in Hk as [-> | Hk]);
        [set_solver | set_solver | by apply elem_of_nil in Hk].
  - injection Hrun as <- <-.
    destruct (Hstep _ _ eq_refl) as (reads1 & -> & Hlen1 & Hmem1).
    exists reads1. split; [done |]. split; [lia |].
    intros p Hp. destruct (Hmem1 p Hp) as (k & Hk & Hr). exists k.
    split; [| done]. unfold path_keys.
    repeat (apply elem_of_cons in Hk as [-> | Hk]);
      [set_solver | set_solver | by apply elem_of_nil in Hk].
Qed.

(** X17.  A transform that returns has changed no key of the record other
    than the output keys of its flags: 'gt_flow_fw' and 'gt_flow_bw',
    'gt_valid' in sparse mode only, 'gt_occ_fw' and 'gt_occ_bw' with the
    occlusion flag only. *)
Theorem transform_writes_output_keys_only self r log r' log' (k : string) :
  transform file_contents flow_from_bytes sparse_flow_from_bytes
    imfrombytes_grayscale astype_float32 self r log = (Ok r', log') ->
  k ∉ written_keys self ->
  r' !! k = r !! k.
Proof.
  unfold transform, written_keys. unfold mbind at 1. unfold io_bind.
  intros Hrun Hk.
  destruct ((if sparse self then load_sparse_flow r else load_flow r) log)
    as [[r1 | e] log1] eqn:Hflow; [| done].
  assert (r1 !! k = r !! k) as <-.
  { destruct (sparse self).
    - eapply load_sparse_flow_other_keys; [exact Hflow | set_solver ..].
    - eapply load_flow_other_keys; [exact Hflow | set_solver ..]. }
  destruct (with_occ self).
  - eapply load_occ_other_keys; [exact Hrun | set_solver ..].
  - by injection Hrun as <- <-.
Qed.

(** X18.  Dense mode with both flow paths present: the forward file is read
    first, then the backward file; each is decoded by the decoder that the
    last three characters of its own path select. *)
Theorem dense_loads_both_flows r log p_fw p_bw b_fw b_bw fl_fw fl_bw :
  r !! "flow_fw_path" = Some (VStr p_fw) ->
  r !! "flow_bw_path" = Some (VStr p_bw) ->
  file_contents p_fw = Ok b_fw -> file_contents p_bw = Ok b_bw ->
  flow_from_bytes b_fw (suffix3 p_fw) = Ok fl_fw ->
  flow_from_bytes b_bw (suffix3 p_bw) = Ok fl_bw ->
  transform file_contents flow_from_bytes sparse_flow_from_bytes
    imfrombytes_grayscale astype_float32
    {| with_occ := false; sparse := false |} r log
  = (Ok (<["gt_flow_bw" := VFlow fl_bw]> (<["gt_flow_fw" := VFlow fl_fw]> r)),
     log ++ [p_fw; p_bw]).
Proof.
  intros Hfw Hbw Hc1 Hc2 Hd1 Hd2.
  unfold transform, _load_flow, dict_get. cbn [sparse with_occ].
  rewrite Hfw, Hbw. cbn. io_unfold.
  rewrite Hc1, Hd1, Hc2, Hd2. by rewrite <- app_assoc.
Qed.

(** X19.  When the forward flow file cannot be read, or cannot be decoded,
    the transform raises that very error after reading that one file:
    nothing else is read, in either mode and with or without the occlusion
    flag. *)
Theorem forward_flow_failure_propagates self r log p (e : exn) :
  r !! "flow_fw_path" = Some (VStr p) ->
  (file_contents p = Raise e \/
   exists b, file_contents p = Ok b /\
     if sparse self then sparse_flow_from_bytes b = Raise e
     else flow_from_bytes b (suffix3 p) = Raise e) ->
  transform file_contents flow_from_bytes sparse_flow_from_bytes
    imfrombytes_grayscale astype_float32 self r log
  = (Raise e, log ++ [p]).
Proof.
  intros Hfw Hfail.
  unfold transform, _load_flow, _load_sparse_flow, dict_get.
  rewrite Hfw. cbn. io_unfold.
  destruct (sparse self); destruct Hfail as [Hc | (b & Hc & Hd)];
    rewrite Hc; try rewrite Hd; done.
Qed.

(** X20.  In sparse mode the transform returns only if the forward flow was
    loaded: the record names a forward flow file, the file was read and
    decoded, and 'gt_flow_fw' holds the flow, never [None]. *)
Theorem sparse_success_has_forward_flow self r log r' log' :
  sparse self = true ->
  transform file_contents flow_from_bytes sparse_flow_from_bytes
    imfrombytes_grayscale astype_float32 self r log = (Ok r', log') ->
  exists path bytes fl valid,
    r !! "flow_fw_path" = Some (VStr path) /\
    file_contents path = Ok bytes /\
    sparse_flow_from_bytes bytes = Ok (fl, valid) /\
    r' !! "gt_flow_fw" = Some (VFlow fl) /\
    r' !! "gt_valid" = Some (VMask valid) /\
    r' !! "gt_flow_bw" = Some VNone.
Proof.
  intros Hsparse. unfold transform. rewrite Hsparse.
  unfold mbind at 1. unfold io_bind.
  destruct (load_sparse_flow r log) as [[r1 | e] log1] eqn:Hflow; [| done].
  intros Hrun.
  assert (exists path bytes fl valid,
            r !! "flow_fw_path" = Some (VStr path) /\
            file_contents path = Ok bytes /\
            sparse_flow_from_bytes bytes = Ok (fl, valid))
    as (path & bytes & fl & valid & Hfw & Hc & Hd).
  { revert Hflow. unfold _load_sparse_flow, dict_get, is_not_none.
    io_unfold. intros Hflow.
    destruct (r !! "flow_fw_path") as [[| p1 | | |] |] eqn:Hfw;
      cbn in Hflow; repeat case_match; simplify_eq; eauto 10. }
  exists path, bytes, fl, valid. repeat split; try done.
  all: rewrite (load_sparse_flow_present _ _ _ _ _ _ _ _ Hfw Hc Hd) in Hflow;
    injection Hflow as <- <-.
  all: destruct (with_occ self);
    [ rewrite (load_occ_other_keys _ _ _ _ _ _ _ _ Hrun) by done
    | injection Hrun as <- <- ];
    by simplify_map_eq.
Qed.

(** X21.  Dense mode with the occlusion flag on a record that names no file
    (each path key missing or [None]): nothing is read, nothing is raised,
    and the four outputs are [None]. *)
Theorem dense_without_paths_stores_none r log :
  dict_get r "flow_fw_path" = VNone -> dict_get r "flow_bw_path" = VNone ->
  dict_get r "occ_fw_path" = VNone -> dict_get r "occ_bw_path" = VNone ->
  transform file_contents flow_from_bytes sparse_flow_from_bytes
    imfrombytes_grayscale astype_float32
    {| with_occ := true; sparse := false |} r log
  = (Ok (<["gt_occ_bw" := VNone]>
           (<["gt_occ_fw" := VNone]>
              (<["gt_flow_bw" := VNone]> (<["gt_flow_fw" := VNone]> r)))),
     log).
Proof.
  intros Hfw Hbw Hofw Hobw.
  unfold transform. cbn [sparse with_occ]. unfold mbind at 1. unfold io_bind.
  rewrite (load_flow_absent _ _ _ _ Hfw Hbw).
  unfold _load_occ.
  assert (forall k, k <> "gt_flow_fw" -> k <> "gt_flow_bw" ->
            dict_get (<["gt_flow_bw" := VNone]> (<["gt_flow_fw" := VNone]> r)) k
            = dict_get r k) as Hget.
  { intros k H1 H2. unfold dict_get. by rewrite !lookup_insert_ne. }
  rewrite !Hget by done. by rewrite Hofw, Hobw.
Qed.

(** A step that returned wrote values that depend on the path entries of
    the record only: on any record with the same path entries it reads the
    same files and writes the same values. *)
Lemma load_flow_rerun r log r1 log1 :
  load_flow r log = (Ok r1, log1) ->
  exists vf vb reads,
    r1 = <["gt_flow_bw" := vb]> (<["gt_flow_fw" := vf]> r) /\
    log1 = log ++ reads /\
    forall r2 log2,
      r2 !! "flow_fw_path" = r !! "flow_fw_path" ->
      r2 !! "flow_bw_path" = r !! "flow_bw_path" ->
      load_flow r2 log2
      = (Ok (<["gt_flow_bw" := vb]> (<["gt_flow_fw" := vf]> r2)),
         log2 ++ reads).
Proof.
  unfold _load_flow, dict_get, is_not_none. io_unfold. intros Hrun.
  destruct (r !! "flow_fw_path") as [[| p1 | | |] |] eqn:Hfw;
    destruct (r !! "flow_bw_path") as [[| p2 | | |] |] eqn:Hbw;
    cbn in Hrun; repeat case_match; simplify_eq;
    (eexists _, _, _; split; [reflexivity |]; split;
     [ first [ by rewrite <- app_assoc | reflexivity
             | symmetry; apply app_nil_r ]
     | intros r2 log2 -> ->; cbn;
       repeat match goal with
              | H : file_contents _ = _ |- _ => rewrite H
              | H : flow_from_bytes _ _ = _ |- _ => rewrite H
              end;
       first [ by rewrite <- app_assoc | by rewrite app_nil_r | done ] ]).
Qed.

Lemma load_sparse_flow_rerun r log r1 log1 :
  load_sparse_flow r log = (Ok r1, log1) ->
  exists vf vv reads,
    r1 = <["gt_valid" := vv]>
           (<["gt_flow_bw" := VNone]> (<["gt_flow_fw" := vf]> r)) /\
    log1 = log ++ reads /\
    forall r2 log2,
      r2 !! "flow_fw_path" = r !! "flow_fw_path" ->
      load_sparse_flow r2 log2
      = (Ok (<["gt_valid" := vv]>
               (<["gt_flow_bw" := VNone]> (<["gt_flow_fw" := vf]> r2))),
         log2 ++ reads).
Proof.
  unfold _load_sparse_flow, dict_get, is_not_none. io_unfold. intros Hrun.
  destruct (r !! "flow_fw_path") as [[| p1 | | |] |] eqn:Hfw;
    cbn in Hrun; repeat case_match; simplify_eq;
    (eexists _, _, _; split; [reflexivity |]; split;
     [ reflexivity
     | intros r2 log2 ->; cbn;
       repeat match goal with
              | H : file_contents _ = _ |- _ => rewrite H
              | H : sparse_flow_from_bytes _ = _ |- _ => rewrite H
              end;
       done ]).
Qed.

Lemma load_occ_rerun r log r1 log1 :
  load_occ r log = (Ok r1, log1) ->
  exists vf vb reads,
    r1 = <["gt_occ_bw" := vb]> (<["gt_occ_fw" := vf]> r) /\
    log1 = log ++ reads /\
    forall r2 log2,
      r2 !! "occ_fw_path" = r !! "occ_fw_path" ->
      r2 !! "occ_bw_path" = r !! "occ_bw_path" ->
      load_occ r2 log2
      = (Ok (<["gt_occ_bw" := vb]> (<["gt_occ_fw" := vf]> r2)),
         log2 ++ reads).
Proof.
  unfold _load_occ, dict_get, is_not_none. io_unfold. intros Hrun.
  destruct (r !! "occ_fw_path") as [[| p1 | | |] |] eqn:Hfw;
    destruct (r !! "occ_bw_path") as [[| p2 | | |] |] eqn:Hbw;
    cbn in Hrun; repeat case_match; simplify_eq;
    (eexists _, _, _; split; [reflexivity |]; split;
     [ first [ by rewrite <- app_assoc | reflexivity
             | symmetry; apply app_nil_r ]
     | intros r2 log2 -> ->; cbn;
       repeat match goal with
              | H : file_contents _ = _ |- _ => rewrite H
              | H : imfrombytes_grayscale _ = _ |- _ => rewrite H
              end;
       first [ by rewrite <- app_assoc | by rewrite app_nil_r | done ] ]).
Qed.

(** X22.  Applying a transform that returned once more, to the record it
    returned and with the files unchanged, reads the same files again and
    returns the same record. *)
Theorem transform_idempotent self r log r' log' log2 :
  transform file_contents flow_from_bytes sparse_flow_from_bytes
    imfrombytes_grayscale astype_float32 self r log = (Ok r', log') ->
  exists reads,
    log' = log ++ reads /\
    transform file_contents flow_from_bytes sparse_flow_from_bytes
      imfrombytes_grayscale astype_float32 self r' log2
    = (Ok r', log2 ++ reads).
Proof.
  unfold transform. unfold mbind, io_bind, mret, io_ret.
  destruct ((if sparse self then load_sparse_flow r else load_flow r) log)
    as [[r1 | e] log1] eqn:Hflow; [| done].
  intros Hocc.
  (* the flow step, on any record with the same flow paths *)
  assert (exists reads1,
            log1 = log ++ reads1 /\
            forall r2 log2,
              r2 !! "flow_fw_path" = r !! "flow_fw_path" ->
              r2 !! "flow_bw_path" = r !! "flow_bw_path" ->
              (forall k, k ∈ written_keys {| with_occ := false;
                                             sparse := sparse self |} ->
                         r2 !! k = r1 !! k) ->
              (if sparse self then load_sparse_flow r2 else load_flow r2) log2
              = (Ok r2, log2 ++ reads1))
    as (reads1 & -> & Hflow2).
  { unfold written_keys. cbn [sparse with_occ]. destruct (sparse self).
    - apply load_sparse_flow_rerun in Hflow
        as (vf & vv & reads1 & -> & -> & Hre).
      exists reads1. split; [done |]. intros r2 l2 Hfw _ Hkeys.
      rewrite (Hre r2 l2 Hfw). do 2 f_equal.
      rewrite !insert_id; [done | ..].
      all: rewrite ?lookup_insert_ne by done;
        rewrite Hkeys by set_solver; by simplify_map_eq.
    - apply load_flow_rerun in Hflow as (vf & vb & reads1 & -> & -> & Hre).
      exists reads1. split; [done |]. intros r2 l2 Hfw Hbw Hkeys.
      rewrite (Hre r2 l2 Hfw Hbw). do 2 f_equal.
      rewrite !insert_id; [done | ..].
      all: rewrite ?lookup_insert_ne by done;
        rewrite Hkeys by set_solver; by simplify_map_eq. }
  assert (forall k, k <> "gt_flow_fw" -> k <> "gt_flow_bw" ->
                    k <> "gt_valid" -> r1 !! k = r !! k) as Hr1.
  { intros k H1 H2 H3. destruct (sparse self).
    - by eapply load_sparse_flow_other_keys.
    - by eapply load_flow_other_keys. }
  destruct (with_occ self).
  - apply load_occ_rerun in Hocc as (vf & vb & reads2 & -> & -> & Hre).
    exists (reads1 ++ reads2). split; [by rewrite app_assoc |].
    rewrite Hflow2.
    + rewrite Hre by (by rewrite !lookup_insert_ne).
      rewrite app_assoc. do 2 f_equal.
      apply map_eq. intros k. rewrite !lookup_insert.
      by repeat case_decide.
    + rewrite !lookup_insert_ne by done. by apply Hr1.
    + rewrite !lookup_insert_ne by done. by apply Hr1.
    + intros k Hk. unfold written_keys in Hk. cbn [sparse with_occ] in Hk.
      assert (k <> "gt_occ_fw" /\ k <> "gt_occ_bw") as [? ?].
      { destruct (sparse self);
          repeat (apply elem_of_cons in Hk as [-> | Hk]); try done;
          by apply elem_of_nil in Hk. }
      by rewrite !lookup_insert_ne.
  - injection Hocc as <- <-. exists reads1. split; [done |].
    rewrite Hflow2; [done | by apply Hr1 .. | done].
Qed.

End LoaderMore.

(** ** The decoder suffix and the normalisation of pixels *)

Lemma list_ascii_of_string_app (s t : string) :
  String.list_ascii_of_string (s +:+ t)
  = String.list_ascii_of_string s ++ String.list_ascii_of_string t.
Proof. induction s as [| a s IH]; [done |]. simpl. f_equal. exact IH. Qed.

Lemma list_ascii_of_string_length (s : string) :
  length (String.list_ascii_of_string s) = String.length s.
Proof. induction s as [| a s IH]; [done |]. simpl. f_equal. exact IH. Qed.

(** X23.  The decoder suffix of a path that ends in a three-character
    extension is that extension, whatever precedes it; a path of at most
    three characters is its own suffix. *)
Theorem suffix3_is_extension (s ext : string) :
  (String.length ext = 3%nat -> suffix3 (s +:+ ext) = ext) /\
  ((String.length s <= 3)%nat -> suffix3 s = s).
Proof.
  split.
  - intros Hext. unfold suffix3, slice_bound.
    rewrite list_ascii_of_string_app, length_app,
      !list_ascii_of_string_length, Hext.
    destruct (Z.ltb_spec (-3) 0); [| lia].
    replace (Z.to_nat ((-3 + Z.of_nat (String.length s + 3)) `max` 0))
      with (length (String.list_ascii_of_string s))
      by (rewrite list_ascii_of_string_length; lia).
    rewrite drop_app_length. apply String.string_of_list_ascii_of_string.
  - intros Hs. unfold suffix3, slice_bound.
    rewrite list_ascii_of_string_length.
    destruct (Z.ltb_spec (-3) 0); [| lia].
    replace (Z.to_nat ((-3 + Z.of_nat (String.length s)) `max` 0))
      with 0%nat by lia.
    rewrite drop_0. apply String.string_of_list_ascii_of_string.
Qed.

(** The 256 pixel values. *)
Lemma byte_in_all_bytes (px : Byte.byte) :
  In px (List.map (fun n => default x00 (Byte.of_N (N.of_nat n)))
           (List.seq 0 256)).
Proof.
  apply List.in_map_iff. exists (N.to_nat (Byte.to_N px)). split.
  - rewrite N2Nat.id, Byte.of_to_N. done.
  - apply List.in_seq. pose proof (Byte.to_N_bounded px). lia.
Qed.

(** X24.  Normalisation maps pixel 0 to 0 and pixel 255 to 1 exactly, and a
    larger pixel to a strictly larger float: distinct pixel values stay
    distinct and ordered. *)
Theorem div255_strictly_increasing :
  div255 x00 = 0%float /\ div255 xff = 1%float /\
  forall p q : Byte.byte,
    (Byte.to_N p < Byte.to_N q)%N ->
    PrimFloat.ltb (div255 p) (div255 q) = true.
Proof.
  split; [reflexivity |]. split; [reflexivity |].
  set (all := List.map (fun n => default x00 (Byte.of_N (N.of_nat n)))
                (List.seq 0 256)).
  assert (List.forallb (fun p =>
            List.forallb (fun q =>
              implb (N.ltb (Byte.to_N p) (Byte.to_N q))
                    (PrimFloat.ltb (div255 p) (div255 q))) all) all = true)
    as Hall by (vm_compute; reflexivity).
  intros p q Hpq.
  rewrite List.forallb_forall in Hall.
  specialize (Hall p (byte_in_all_bytes p)).
  rewrite List.forallb_forall in Hall.
  specialize (Hall q (byte_in_all_bytes q)).
  apply N.ltb_lt in Hpq. by rewrite Hpq in Hall.
Qed.

(** ** The webcam loader *)

Section WebcamFacts.

Context {Img : Type}.
Variable img_astype_float32 : Img -> Img.
Variable img_shape_of : Img -> list Z.

Implicit Types (results out : gmap string (wvalue Img)).

(** The image as the call stores it. *)
Local Abbreviation converted self a :=
  (if to_float32 self then img_astype_float32 a else a).

(** X25.  A record without 'img1' or without 'img2' makes the call raise
    [KeyError] for the first of the two that is missing. *)
Theorem webcam_needs_both_images self results :
  results !! "img1" = None \/ results !! "img2" = None ->
  __call__ img_astype_float32 img_shape_of self results
  = Raise (KeyError (match results !! "img1" with
                     | None => "img1"
                     | Some _ => "img2"
                     end)).
Proof.
  intros Hmiss. unfold __call__, dict_item.
  destruct (results !! "img1") as [v1 |]; [| done].
  destruct Hmiss as [? | ->]; done.
Qed.

(** X26.  When the call returns, 'img_shape' and 'ori_shape' are both the
    shape of the first image as stored, whatever the second image is; both
    path keys hold [None], also when the record had paths; and every key
    other than the six written ones is as it was. *)
Theorem webcam_shapes_come_from_first_image self results out :
  __call__ img_astype_float32 img_shape_of self results = Ok out ->
  exists a1 : Img,
    results !! "img1" = Some (WImg a1) /\
    out !! "img1" = Some (WImg (converted self a1)) /\
    out !! "img_shape" = Some (WShape (img_shape_of (converted self a1))) /\
    out !! "ori_shape" = Some (WShape (img_shape_of (converted self a1))) /\
    out !! "img1_path" = Some WNone /\ out !! "img2_path" = Some WNone /\
    forall k : string,
      k ∉ ["img1_path"; "img2_path"; "img1"; "img2"; "img_shape"; "ori_shape"] ->
      out !! k = results !! k.
Proof.
  unfold __call__, dict_item, wastype, wshape, mbind, res_bind. intros Hrun.
  destruct (results !! "img1") as [v1 |] eqn:H1; [| done].
  destruct (results !! "img2") as [v2 |] eqn:H2; [| done].
  destruct (to_float32 self); repeat case_match; simplify_eq;
    (eexists; split; [reflexivity |];
     repeat (split; [by simplify_map_eq |]);
     intros k Hk; rewrite !lookup_insert_ne; [done | set_solver ..]).
Qed.

(** X27.  When the conversion to float32 leaves a converted image as it is,
    calling the loader again on the record it returned returns the same
    record. *)
Theorem webcam_call_idempotent self results out :
  (forall a, img_astype_float32 (img_astype_float32 a)
             = img_astype_float32 a) ->
  __call__ img_astype_float32 img_shape_of self results = Ok out ->
  __call__ img_astype_float32 img_shape_of self out = Ok out.
Proof.
  intros Hidem Hrun.
  assert (exists (a1 : Img) (v2 : wvalue Img),
            out !! "img1" = Some (WImg a1) /\ out !! "img2" = Some v2 /\
            out !! "img1_path" = Some WNone /\
            out !! "img2_path" = Some WNone /\
            out !! "img_shape" = Some (WShape (img_shape_of a1)) /\
            out !! "ori_shape" = Some (WShape (img_shape_of a1)) /\
            (if to_float32 self
             then img_astype_float32 a1 = a1 /\
                  exists a2, v2 = WImg a2 /\ img_astype_float32 a2 = a2
             else True))
    as (a1 & v2 & H1 & H2 & Hp1 & Hp2 & Hs & Ho & Hconv).
  { revert Hrun.
    unfold __call__, dict_item, wastype, wshape, mbind, res_bind.
    destruct (results !! "img1") as [w1 |]; [| done].
    destruct (results !! "img2") as [w2 |]; [| done].
    destruct (to_float32 self).
    - destruct w1 as [| b1 |]; try done. destruct w2 as [| b2 |]; try done.
      intros [= <-]. exists (img_astype_float32 b1), (WImg (img_astype_float32 b2)).
      repeat (split; [by simplify_map_eq |]). eauto.
    - destruct w1 as [| b1 |]; try done.
      intros [= <-]. exists b1, w2.
      repeat (split; [by simplify_map_eq |]). done. }
  clear Hrun.
  unfold __call__, dict_item, wastype, wshape, mbind, res_bind.
  rewrite H1, H2.
  assert (<["ori_shape" := WShape (img_shape_of a1)]>
            (<["img_shape" := WShape (img_shape_of a1)]>
               (<["img2" := v2]>
                  (<["img1" := WImg a1]>
                     (<["img2_path" := WNone]>
                        (<["img1_path" := WNone]> out))))) = out) as Hsame.
  { rewrite (insert_id out "img1_path") by done.
    rewrite (insert_id out "img2_path") by done.
    rewrite (insert_id out "img1") by done.
    rewrite (insert_id out "img2") by done.
    rewrite (insert_id out "img_shape") by done.
    by rewrite (insert_id out "ori_shape"). }
  destruct (to_float32 self).
  - destruct Hconv as (Hc1 & a2 & -> & Hc2). rewrite Hc1, Hc2.
    by rewrite Hsame.
  - by rewrite Hsame.
Qed.

End WebcamFacts.

(** ** The printed form of the annotation loader *)

Lemma string_app_assoc (s t u : string) :
  (s +:+ t) +:+ u = s +:+ (t +:+ u).
Proof.
  induction s as [| a s IH]; [done |].
  change (String a ((s +:+ t) +:+ u) = String a (s +:+ (t +:+ u))).
  by rewrite IH.
Qed.

(** X28.  For one class name and one printed [file_client_args], loaders
    with different flags have different printed forms. *)
Theorem repr_tells_flags_apart (class_name args : string)
    (self1 self2 : LoadAnnotations) :
  self1 <> self2 ->
  __repr__ class_name self1 args <> __repr__ class_name self2 args.
Proof.
  intros Hne Heq. apply Hne. revert Heq.
  unfold __repr__. rewrite !string_app_assoc. intros Heq.
  apply (inj (String.append class_name)) in Heq.
  destruct self1 as [[] []], self2 as [[] []];
    cbv in Heq; try reflexivity; discriminate Heq.
Qed.

(** ** More examples *)

Section MoreExamples.

Import Example ExampleMore.

(** An 'ori_shape' of three entries, as a colour image has, with a pad. *)
Lemma ori_shape_must_have_two_entries_witness :
  postprocess_result qdiv interpolate [ramp 2 5 7]
    (Some [meta (Some ((2, 2), (3, 3))) None [1; 1; 3]])
  = Raise ValueError.
Proof.
  apply (ori_shape_must_have_two_entries qdiv interpolate [ramp 2 5 7]
           [meta (Some ((2, 2), (3, 3))) None [1; 1; 3]] (ramp 2 5 7)
           (meta (Some ((2, 2), (3, 3))) None [1; 1; 3]));
    [reflexivity | reflexivity | reflexivity |].
  intros oh ow. discriminate.
Defined.

(** Only the width scale is given: the prediction is kept. *)
Lemma no_pad_no_scale_keeps_prediction_witness :
  let f := [[[0; 1]]; [[100; 101]]]%Q in
  let d := meta None (Some (Some (1 # 2)%Q, None)) [2; 4] in
  postprocess_result qdiv interpolate [f] (Some [d])
  = Ok (Some [set_data (pred_flow_fw f) d]).
Proof.
  intros f d.
  apply (no_pad_no_scale_keeps_prediction qdiv interpolate [f] [d] f d 2 4);
    [reflexivity | reflexivity | reflexivity | reflexivity | reflexivity |].
  intros w h. discriminate.
Defined.

(** Three channels: the third is interpolated and not divided. *)
Lemma scale_divides_first_two_channels_only_witness :
  let d := meta None (Some (Some (1 # 2), Some (1 # 2)))%Q [2; 4] in
  postprocess_result qdiv interpolate [ramp 3 1 2] (Some [d])
  = Ok (Some [set_data
                (pred_flow_fw
                   [[[0; 1 # 2; 3 # 2; 2]; [0; 1 # 2; 3 # 2; 2]];
                    [[200; 401 # 2; 403 # 2; 202];
                     [200; 401 # 2; 403 # 2; 202]];
                    [[200; 801 # 4; 803 # 4; 201];
                     [200; 801 # 4; 803 # 4; 201]]]%Q) d]).
Proof.
  intros d.
  exact (scale_divides_first_two_channels_only qdiv interpolate
           [ramp 3 1 2] [d] (ramp 3 1 2) d (1 # 2)%Q (1 # 2)%Q 2 4
           [[0; 1 # 4; 3 # 4; 1]; [0; 1 # 4; 3 # 4; 1]]%Q
           [[100; 401 # 4; 403 # 4; 101]; [100; 401 # 4; 403 # 4; 101]]%Q
           [[[200; 801 # 4; 803 # 4; 201]; [200; 801 # 4; 803 # 4; 201]]%Q]
           eq_refl eq_refl eq_refl eq_refl eq_refl eq_refl eq_refl).
Defined.

(** One channel only. *)
Lemma scale_needs_two_channels_witness :
  let d := meta None (Some (Some (1 # 2), Some (1 # 2)))%Q [2; 4] in
  postprocess_result qdiv interpolate [ramp 1 1 2] (Some [d])
  = Raise IndexError.
Proof.
  intros d.
  apply (scale_needs_two_channels qdiv interpolate [ramp 1 1 2] [d]
           (ramp 1 1 2) d (1 # 2)%Q (1 # 2)%Q 2 4
           [[[0; 1 # 4; 3 # 4; 1]; [0; 1 # 4; 3 # 4; 1]]%Q]);
    [reflexivity .. | simpl; lia].
Defined.

(** Two samples, the first with a pad. *)
Lemma postprocess_result_keeps_records_witness :
  let d0 := meta (Some ((2, 2), (3, 3))) None [1; 1] in
  let d1 := meta None None [5; 7] in
  let out := [set_data (pred_flow_fw [[[23%Q]]; [[123%Q]]]) d0; d1] in
  length out = length [d0; d1] /\
  (forall (j : nat) o d,
     out !! j = Some o -> [d0; d1] !! j = Some d ->
     metainfo o = metainfo d /\
     forall k : string, k <> "pred_flow_fw" -> fields o !! k = fields d !! k) /\
  exists o g, out !! 0%nat = Some o /\
              fields o !! "pred_flow_fw" = Some {| data := g |}.
Proof.
  intros d0 d1 out.
  exact (postprocess_result_keeps_records qdiv interpolate
           [ramp 2 5 7; ramp 2 5 7] [d0; d1] out eq_refl).
Defined.

Lemma postprocess_result_reads_first_prediction_only_witness :
  let d := meta (Some ((2, 2), (3, 3))) None [1; 1] in
  postprocess_result qdiv interpolate [ramp 2 5 7; ramp 2 1 1] (Some [d; d])
  = postprocess_result qdiv interpolate [ramp 2 5 7; ramp 2 9 9] (Some [d; d]).
Proof.
  intros d.
  exact (postprocess_result_reads_first_prediction_only qdiv interpolate
           (ramp 2 5 7) [ramp 2 1 1] [ramp 2 9 9] (Some [d; d]) eq_refl).
Defined.

Lemma postprocess_result_idempotent_witness :
  let d := meta None (Some (Some (1 # 2), Some (1 # 2)))%Q [2; 4] in
  let f := [[[0; 1]]; [[100; 101]]]%Q in
  let out := [set_data
                (pred_flow_fw
                   [[[0; 1 # 2; 3 # 2; 2]; [0; 1 # 2; 3 # 2; 2]];
                    [[200; 401 # 2; 403 # 2; 202];
                     [200; 401 # 2; 403 # 2; 202]]]%Q) d] in
  postprocess_result qdiv interpolate [f] (Some out) = Ok (Some out).
Proof.
  intros d f out.
  exact (postprocess_result_idempotent qdiv interpolate [f] [d] out eq_refl).
Defined.

Lemma zero_pad_keeps_prediction_witness :
  let d := meta (Some ((0, 0), (0, 0))) None [2; 2] in
  postprocess_result qdiv interpolate [ramp 2 2 2] (Some [d])
  = Ok (Some [set_data (pred_flow_fw (ramp 2 2 2)) d]).
Proof.
  intros d.
  apply (zero_pad_keeps_prediction qdiv interpolate [ramp 2 2 2] [d]
           (ramp 2 2 2) d 2 2 2 2 2);
    [reflexivity | reflexivity | reflexivity
    | split; [reflexivity | repeat constructor]
    | lia | lia | reflexivity | reflexivity].
Defined.

(** Height 5 and a bottom margin of 7: the first 3 rows are kept. *)
Lemma oversized_bottom_margin_wraps_witness :
  let d := meta (Some ((0, 7), (0, 0))) None [5; 7] in
  postprocess_result qdiv interpolate [ramp 2 5 7] (Some [d])
  = Ok (Some [set_data (pred_flow_fw (ramp 2 3 7)) d]).
Proof.
  intros d.
  apply (oversized_bottom_margin_wraps qdiv interpolate [ramp 2 5 7] [d]
           (ramp 2 5 7) d 5 7 2 5 7 7);
    [reflexivity | reflexivity | reflexivity
    | split; [reflexivity | repeat constructor]
    | reflexivity | reflexivity | lia].
Defined.

(** Height 5 and margins 3 and 2: no row is left. *)
Lemma overlapping_margins_leave_no_row_witness :
  let d := meta (Some ((3, 2), (0, 0))) None [5; 7] in
  postprocess_result qdiv interpolate [ramp 2 5 7] (Some [d])
  = Ok (Some [set_data (pred_flow_fw [[]; []]) d]).
Proof.
  intros d.
  apply (overlapping_margins_leave_no_row qdiv interpolate [ramp 2 5 7] [d]
           (ramp 2 5 7) d 5 7 2 5 7 3 2 0 0);
    [reflexivity | reflexivity | reflexivity
    | split; [reflexivity | repeat constructor]
    | reflexivity | reflexivity | lia | lia | lia].
Defined.

Lemma predict_by_feat_needs_img_shape_witness :
  predict_by_feat qdiv interpolate qmul interpolate_all img_shape_short
    2%Q [ramp 2 1 2] (Some [meta None None [2; 4]])
  = Raise ValueError.
Proof.
  apply (predict_by_feat_needs_img_shape qdiv interpolate qmul
           interpolate_all img_shape_short 2%Q [ramp 2 1 2]
           (meta None None [2; 4]) []).
  intros H W rest. discriminate.
Defined.

(** Colour images of shape (2, 4, 3) and grey images of shape (2, 4). *)
Lemma predict_by_feat_reads_two_entries_of_first_img_shape_witness :
  let d := meta (Some ((0, 1), (1, 1))) None [1; 2] in
  predict_by_feat qdiv interpolate qmul interpolate_all img_shape_2_4
    2%Q [ramp 2 1 2] (Some [d])
  = predict_by_feat qdiv interpolate qmul interpolate_all img_shape_2_4_grey
      2%Q [ramp 2 1 2] (Some [d]).
Proof.
  intros d.
  exact (predict_by_feat_reads_two_entries_of_first_img_shape qdiv
           interpolate qmul interpolate_all img_shape_2_4 img_shape_2_4_grey
           2%Q [ramp 2 1 2] d [] eq_refl).
Defined.

(** A (2, 1, 2) prediction, images of shape (2, 4), flow_div 2 and a pad of
    one bottom row and one column on each side: the result has shape
    (2, 1, 2). *)
Lemma predict_by_feat_resizes_scales_crops_witness :
  let d := meta (Some ((0, 1), (1, 1))) None [1; 2] in
  let out := [[[1 # 2; 3 # 2]]; [[401 # 2; 403 # 2]]]%Q in
  has_shape out 2 (2 - 0 - 1) (4 - 1 - 1) /\
  predict_by_feat qdiv interpolate qmul interpolate_all img_shape_2_4
    2%Q [ramp 2 1 2] (Some [d])
  = Ok (Some [set_data (pred_flow_fw out) d]).
Proof.
  intros d out.
  apply (predict_by_feat_resizes_scales_crops qdiv interpolate qmul
           interpolate_all img_shape_2_4 2%Q [ramp 2 1 2] d []
           2 4 1 2 0 1 1 1 [3]
           [[[0; 1 # 4; 3 # 4; 1]; [0; 1 # 4; 3 # 4; 1]];
            [[100; 401 # 4; 403 # 4; 101]; [100; 401 # 4; 403 # 4; 101]]]%Q
           []);
    [reflexivity | reflexivity | reflexivity
    | split; [reflexivity | repeat constructor]
    | reflexivity | reflexivity | lia ..].
Defined.

Lemma transform_reads_named_files_only_witness :
  reads_within sparse_record path_keys 4 [] ["000000_10.png"; "occ_fw.png"].
Proof.
  exact (transform_reads_named_files_only files decode_flow decode_sparse
           decode_gray (fun x => x) {| with_occ := true; sparse := true |}
           sparse_record [] (Ok sparse_loaded) _ eq_refl).
Defined.

Lemma transform_writes_output_keys_only_witness :
  sparse_loaded !! "occ_fw_path" = sparse_record !! "occ_fw_path".
Proof.
  apply (transform_writes_output_keys_only files decode_flow decode_sparse
           decode_gray (fun x => x) {| with_occ := true; sparse := true |}
           sparse_record [] sparse_loaded ["000000_10.png"; "occ_fw.png"]
           "occ_fw_path" eq_refl).
  intros Hk.
  repeat (apply elem_of_cons in Hk as [Hk | Hk]; [discriminate Hk |]).
  by apply elem_of_nil in Hk.
Defined.

Lemma dense_loads_both_flows_witness :
  let r : gmap string (value (list Byte.byte) (list bool) float) :=
    {[ "flow_fw_path" := VStr "000000_10.png";
       "flow_bw_path" := VStr "occ_fw.png" ]} in
  transform files decode_flow decode_sparse decode_gray (fun x => x)
    {| with_occ := false; sparse := false |} r []
  = (Ok (<["gt_flow_bw" := VFlow [x00; x33; xff]%byte]>
           (<["gt_flow_fw" := VFlow [x00; x80; xff]%byte]> r)),
     ["000000_10.png"; "occ_fw.png"]).
Proof.
  intros r.
  exact (dense_loads_both_flows files decode_flow decode_sparse decode_gray
           (fun x => x) r [] "000000_10.png" "occ_fw.png"
           [x00; x80; xff]%byte [x00; x33; xff]%byte
           [x00; x80; xff]%byte [x00; x33; xff]%byte
           eq_refl eq_refl eq_refl eq_refl eq_refl eq_refl).
Defined.

(** A forward flow file that does not exist, in dense mode with the
    occlusion flag: the error of the file client is raised. *)
Lemma forward_flow_failure_propagates_witness :
  let r : gmap string (value (list Byte.byte) (list bool) float) :=
    {[ "flow_fw_path" := VStr "missing.flo";
       "flow_bw_path" := VStr "000000_10.png";
       "occ_fw_path" := VStr "occ_fw.png" ]} in
  transform files decode_flow decode_sparse decode_gray (fun x => x)
    {| with_occ := true; sparse := false |} r []
  = (Raise (ExternalError "FileNotFoundError"), ["missing.flo"]).
Proof.
  intros r.
  exact (forward_flow_failure_propagates files decode_flow decode_sparse
           decode_gray (fun x => x) {| with_occ := true; sparse := false |}
           r [] "missing.flo" (ExternalError "FileNotFoundError")
           eq_refl (or_introl eq_refl)).
Defined.

Lemma sparse_success_has_forward_flow_witness :
  exists path bytes fl valid,
    sparse_record !! "flow_fw_path" = Some (VStr path) /\
    files path = Ok bytes /\
    decode_sparse bytes = Ok (fl, valid) /\
    sparse_loaded !! "gt_flow_fw" = Some (VFlow fl) /\
    sparse_loaded !! "gt_valid" = Some (VMask valid) /\
    sparse_loaded !! "gt_flow_bw" = Some VNone.
Proof.
  exact (sparse_success_has_forward_flow files decode_flow decode_sparse
           decode_gray (fun x => x) {| with_occ := true; sparse := true |}
           sparse_record [] sparse_loaded ["000000_10.png"; "occ_fw.png"]
           eq_refl eq_refl).
Defined.

Lemma dense_without_paths_stores_none_witness :
  transform files decode_flow decode_sparse decode_gray (fun x => x)
    {| with_occ := true; sparse := false |} ∅ []
  = (Ok (<["gt_occ_bw" := VNone]>
           (<["gt_occ_fw" := VNone]>
              (<["gt_flow_bw" := VNone]> (<["gt_flow_fw" := VNone]> ∅)))),
     []).
Proof.
  exact (dense_without_paths_stores_none files decode_flow decode_sparse
           decode_gray (fun x => x) ∅ [] eq_refl eq_refl eq_refl eq_refl).
Defined.

Lemma transform_idempotent_witness :
  exists reads,
    ["000000_10.png"; "occ_fw.png"] = [] ++ reads /\
    transform files decode_flow decode_sparse decode_gray (fun x => x)
      {| with_occ := true; sparse := true |} sparse_loaded ["earlier.png"]
    = (Ok sparse_loaded, ["earlier.png"] ++ reads).
Proof.
  exact (transform_idempotent files decode_flow decode_sparse decode_gray
           (fun x => x) {| with_occ := true; sparse := true |}
           sparse_record [] sparse_loaded ["000000_10.png"; "occ_fw.png"]
           ["earlier.png"] eq_refl).
Defined.

Lemma suffix3_is_extension_witness :
  suffix3 ("data/frame_0001." +:+ "flo") = "flo" /\ suffix3 "ab" = "ab".
Proof.
  split.
  - exact (proj1 (suffix3_is_extension "data/frame_0001." "flo") eq_refl).
  - apply (proj2 (suffix3_is_extension "ab" "")). simpl. lia.
Defined.

Lemma div255_strictly_increasing_witness :
  PrimFloat.ltb (div255 x33) (div255 x80) = true.
Proof.
  apply (proj2 (proj2 div255_strictly_increasing) x33 x80). reflexivity.
Defined.

(** A record with a first image only. *)
Lemma webcam_needs_both_images_witness :
  __call__ image_float image_shape {| to_float32 := true |}
    {[ "img1" := WImg [[1; 2; 3]] ]}
  = Raise (KeyError "img2").
Proof.
  exact (webcam_needs_both_images image_float image_shape
           {| to_float32 := true |} {[ "img1" := WImg [[1; 2; 3]] ]}
           (or_intror eq_refl)).
Defined.

Lemma webcam_shapes_come_from_first_image_witness :
  exists a1 : list (list Z),
    webcam_record !! "img1" = Some (WImg a1) /\
    webcam_loaded !! "img1" = Some (WImg (image_float a1)) /\
    webcam_loaded !! "img_shape"
      = Some (WShape (image_shape (image_float a1))) /\
    webcam_loaded !! "ori_shape"
      = Some (WShape (image_shape (image_float a1))) /\
    webcam_loaded !! "img1_path" = Some WNone /\
    webcam_loaded !! "img2_path" = Some WNone /\
    forall k : string,
      k ∉ ["img1_path"; "img2_path"; "img1"; "img2"; "img_shape"; "ori_shape"] ->
      webcam_loaded !! k = webcam_record !! k.
Proof.
  exact (webcam_shapes_come_from_first_image image_float image_shape
           {| to_float32 := true |} webcam_record webcam_loaded eq_refl).
Defined.

Lemma webcam_call_idempotent_witness :
  __call__ image_float image_shape {| to_float32 := true |} webcam_loaded
  = Ok webcam_loaded.
Proof.
  exact (webcam_call_idempotent image_float image_shape
           {| to_float32 := true |} webcam_record webcam_loaded
           (fun a => eq_refl) eq_refl).
Defined.

Lemma repr_tells_flags_apart_witness :
  __repr__ "LoadAnnotations" {| with_occ := false; sparse := true |}
    "{'backend': 'disk'}"
  <> __repr__ "LoadAnnotations" {| with_occ := false; sparse := false |}
       "{'backend': 'disk'}".
Proof.
  apply (repr_tells_flags_apart "LoadAnnotations" "{'backend': 'disk'}"
           {| with_occ := false; sparse := true |}
           {| with_occ := false; sparse := false |}).
  discriminate.
Defined.

End MoreExamples.

(** ** Samples after the first *)

Section LaterSamples.

Context {R S : Type}.
Variable tdiv : R -> S -> R.
Variable interpolate_bilinear :
  list (list (list R)) -> Z * Z -> res (list (list (list R))).

(** C4 (failing input).  Two predictions of shape (2, 1, 2), both with
    pad = ((0, 0), (1, 0)) in their metadata: the first is cropped to
    (2, 1, 1) and attached; the second is not cropped, and its record is
    returned as it was passed, without a prediction. *)
Theorem second_padded_sample_is_not_cropped (x1 x2 x3 x4 y1 y2 y3 y4 : R) :
  let d : FlowDataSample R S :=
    {| metainfo := {| ori_shape := Some [1; 1];
                      pad := Some ((0, 0), (1, 0));
                      scale_factor := None |};
       fields := ∅ |} in
  let f0 := [[[x1; x2]]; [[x3; x4]]] in
  let f1 := [[[y1; y2]]; [[y3; y4]]] in
  postprocess_result tdiv interpolate_bilinear [f0; f1] (Some [d; d])
    = Ok (Some [set_data (pred_flow_fw [[[x2]]; [[x4]]]) d; d])
  /\ fields d !! "pred_flow_fw" = None.
Proof. intros d f0 f1. split; reflexivity. Qed.

(** C5 (failing input).  Two predictions, the second with scale factors
    and an original shape in its metadata: the call returns without having
    upsampled or divided the second prediction, whatever the interpolation;
    the second record is returned as it was passed, without a
    prediction. *)
Theorem second_scaled_sample_is_not_upsampled (w h : S) (x y : R) :
  let d0 : FlowDataSample R S :=
    {| metainfo := {| ori_shape := Some [1; 1]; pad := None;
                      scale_factor := None |};
       fields := ∅ |} in
  let d1 : FlowDataSample R S :=
    {| metainfo := {| ori_shape := Some [2; 2]; pad := None;
                      scale_factor := Some (Some w, Some h) |};
       fields := ∅ |} in
  let f0 := [[[x]]; [[x]]] in
  let f1 := [[[y]]; [[y]]] in
  postprocess_result tdiv interpolate_bilinear [f0; f1] (Some [d0; d1])
    = Ok (Some [set_data (pred_flow_fw f0) d0; d1])
  /\ fields d1 !! "pred_flow_fw" = None.
Proof. intros d0 d1 f0 f1. split; reflexivity. Qed.

(** C6 (failing input).  Two predictions of shape (2, 1, 2), both with a
    pad and scale factors in their metadata: the first is cropped and not
    upsampled; to the second no branch is applied at all, and its record is
    returned as it was passed, without a prediction. *)
Theorem second_sample_with_pad_and_scale_gets_no_branch (w h : S)
    (x1 x2 x3 x4 y1 y2 y3 y4 : R) :
  let d : FlowDataSample R S :=
    {| metainfo := {| ori_shape := Some [2; 2];
                      pad := Some ((0, 0), (1, 0));
                      scale_factor := Some (Some w, Some h) |};
       fields := ∅ |} in
  let f0 := [[[x1; x2]]; [[x3; x4]]] in
  let f1 := [[[y1; y2]]; [[y3; y4]]] in
  postprocess_result tdiv interpolate_bilinear [f0; f1] (Some [d; d])
    = Ok (Some [set_data (pred_flow_fw [[[x2]]; [[x4]]]) d; d])
  /\ fields d !! "pred_flow_fw" = None.
Proof. intros d f0 f1. split; reflexivity. Qed.

End LaterSamples.
